(** * Persistence and result delivery of the scheduler

    A shallow embedding of [mcp_scheduler/mongo_persistence.py] (class
    [MongoDatabase]) and [mcp_scheduler/message_delivery.py] (class
    [MessageDelivery]), with the properties of the specification stated
    and proved over it.

    Python values are a small tagged universe, a MongoDB document is a
    finite map from field names to values, a collection is the list of its
    documents in natural (insertion) order.  Methods thread the state of the
    database and of the logger explicitly and may raise. *)

From Stdlib Require Import ZArith List Ascii String.
From Stdlib Require Import Sorting.Sorted Sorting.Permutation.
From stdpp Require Import base option list strings pretty gmap.

Local Open Scope Z_scope.

(** ** Python values, exceptions, results *)

(** The values that occur in the stored documents: [None], booleans,
    integers, strings, a string-to-string dictionary ([api_headers]), the
    [ObjectId] of the [_id] field and datetimes.  A datetime is an integral
    timestamp in the resolution of the store. *)
Inductive value : Type :=
  | VNone
  | VBool (b : bool)
  | VInt (n : Z)
  | VStr (s : string)
  | VObj (fields : list (string * string))
  | VOid (n : Z)
  | VDate (t : Z).

#[global] Instance value_eq_dec : EqDecision value.
Proof. solve_decision. Defined.

Abbreviation Doc := (gmap string value).

Inductive exn : Type :=
  | ConnectionFailure (msg : string)
  | ServerSelectionTimeoutError (msg : string)
  | KeyError (key : string)
  | ValueError (msg : string)
  | ValidationError (field : string)
  | TimeoutError
  | ClientError (msg : string).

#[global] Instance exn_eq_dec : EqDecision exn.
Proof. solve_decision. Defined.

(** [str(e)] as it is interpolated in the log messages. *)
Definition exn_str (e : exn) : string :=
  match e with
  | ConnectionFailure m => m
  | ServerSelectionTimeoutError m => m
  | KeyError k => "'" +:+ k +:+ "'"
  | ValueError m => m
  | ValidationError f => "validation error for " +:+ f
  | TimeoutError => ""
  | ClientError m => m
  end.

Inductive result (A : Type) : Type :=
  | Ok (a : A)
  | Raise (e : exn).
Arguments Ok {A} a.
Arguments Raise {A} e.

Definition rbind {A B} (r : result A) (k : A -> result B) : result B :=
  match r with
  | Ok a => k a
  | Raise e => Raise e
  end.

Declare Scope pyres_scope.
Delimit Scope pyres_scope with pyres.
Notation "'let?' x := r 'in' k" := (rbind r (fun x => k))
  (at level 10, x name, r at level 100, k at level 200) : pyres_scope.

Inductive level : Type := INFO | WARNING | ERROR.

Definition log_record : Type := level * string.

(** ** Methods: state passing with exceptions *)

(** A method run on a state [St] returns or raises, and leaves a state. *)
Definition Eff (St A : Type) : Type := St -> result A * St.

Section Eff.
Context {St : Type}.

Definition ret {A} (a : A) : Eff St A := fun s => (Ok a, s).

Definition raise {A} (e : exn) : Eff St A := fun s => (Raise e, s).

Definition bind {A B} (m : Eff St A) (k : A -> Eff St B) : Eff St B :=
  fun s =>
    match m s with
    | (Ok a, s') => k a s'
    | (Raise e, s') => (Raise e, s')
    end.

Definition lift {A} (r : result A) : Eff St A := fun s => (r, s).

(** [try: body except Exception as e: handler] *)
Definition try_except {A} (body : Eff St A) (handler : exn -> Eff St A)
  : Eff St A :=
  fun s =>
    match body s with
    | (Ok a, s') => (Ok a, s')
    | (Raise e, s') => handler e s'
    end.
End Eff.

Declare Scope eff_scope.
Delimit Scope eff_scope with eff.
Notation "'let!' x := m 'in' k" := (bind m (fun x => k))
  (at level 10, x name, m at level 100, k at level 200) : eff_scope.
Notation "m ;; k" := (bind m (fun _ => k))
  (at level 100, k at level 200, right associativity) : eff_scope.

(** ** Dictionary access *)

(** [doc[k]] *)
Definition getitem (d : Doc) (k : string) : result value :=
  match d !! k with
  | Some v => Ok v
  | None => Raise (KeyError k)
  end.

(** [doc.get(k, dflt)]; [doc.get(k)] is [dict_get d k VNone]. *)
Definition dict_get (d : Doc) (k : string) (dflt : value) : value :=
  default dflt (d !! k).

(** The list comprehension [[f(x) for x in l]]: the first [f x] that
    raises aborts the whole comprehension. *)
Fixpoint comprehension {A B} (f : A -> result B) (l : list A)
  : result (list B) :=
  match l with
  | [] => Ok []
  | x :: l' =>
      match f x with
      | Raise e => Raise e
      | Ok y =>
          match comprehension f l' with
          | Raise e => Raise e
          | Ok ys => Ok (y :: ys)
          end
      end
  end.

(** ** The entity model *)

(** Modelled from the spec: [task.py] (the enums [TaskType] and
    [TaskStatus] and the classes [Task] and [TaskExecution]) is not among
    the sources.  Section 3 of the specification gives the members of the
    enums and the fields of the records with their types; an enum is
    called with a stored string and raises [ValueError] for a string that
    is the value of none of its members, as every Python [Enum] does; the
    constructors reject a field value of another type than section 3
    states. *)
Inductive TaskType : Type := COMMAND | API | AI_PROMPT | REMINDER.

(** Modelled from the spec: the enum [TaskStatus] of [task.py], with the
    members of section 3. *)
Inductive TaskStatus : Type :=
  PENDING | RUNNING | COMPLETED | FAILED | CANCELLED.

#[global] Instance TaskType_eq_dec : EqDecision TaskType.
Proof. solve_decision. Defined.
#[global] Instance TaskStatus_eq_dec : EqDecision TaskStatus.
Proof. solve_decision. Defined.

(** Modelled from the spec: [member.value] for the members of [TaskType]
    of [task.py], the strings of section 3. *)
Definition TaskType_value (t : TaskType) : string :=
  match t with
  | COMMAND => "command"
  | API => "api"
  | AI_PROMPT => "ai-prompt"
  | REMINDER => "reminder"
  end.

(** Modelled from the spec: [member.value] for the members of
    [TaskStatus] of [task.py], the strings of section 3. *)
Definition TaskStatus_value (s : TaskStatus) : string :=
  match s with
  | PENDING => "pending"
  | RUNNING => "running"
  | COMPLETED => "completed"
  | FAILED => "failed"
  | CANCELLED => "cancelled"
  end.

Definition TaskType_members : list TaskType :=
  [COMMAND; API; AI_PROMPT; REMINDER].

Definition TaskStatus_members : list TaskStatus :=
  [PENDING; RUNNING; COMPLETED; FAILED; CANCELLED].

(** Modelled from the spec: the call [TaskType(v)] of the enum of
    [task.py]: the member whose value is [v], [ValueError] when there is
    none. *)
Definition TaskType_call (v : value) : result TaskType :=
  match v with
  | VStr s =>
      match List.find (fun m => String.eqb (TaskType_value m) s)
                      TaskType_members with
      | Some m => Ok m
      | None => Raise (ValueError ("'" +:+ s +:+ "' is not a valid TaskType"))
      end
  | _ => Raise (ValueError "not a valid TaskType")
  end.

(** Modelled from the spec: the call [TaskStatus(v)] of the enum of
    [task.py]. *)
Definition TaskStatus_call (v : value) : result TaskStatus :=
  match v with
  | VStr s =>
      match List.find (fun m => String.eqb (TaskStatus_value m) s)
                      TaskStatus_members with
      | Some m => Ok m
      | None =>
          Raise (ValueError ("'" +:+ s +:+ "' is not a valid TaskStatus"))
      end
  | _ => Raise (ValueError "not a valid TaskStatus")
  end.

(** Modelled from the spec: the class [Task] of [task.py], with the
    fields of section 3 in the order in which [_doc_to_task] passes them;
    the nullable fields are options. *)
Record Task : Type := {
  id : string;
  name : string;
  schedule : string;
  type : TaskType;
  command : option string;
  api_url : option string;
  api_method : option string;
  api_headers : option (list (string * string));
  api_body : option string;
  prompt : option string;
  description : option string;
  enabled : bool;
  do_only_once : bool;
  last_run : option Z;
  next_run : option Z;
  status : TaskStatus;
  created_at : Z;
  updated_at : Z;
  reminder_title : option string;
  reminder_message : option string;
  user : option string;
  conversation_id : option string
}.

(** Modelled from the spec: the class [TaskExecution] of [task.py], with
    the fields of section 3.  Its [id], [status] and [user] are named
    [exec_id], [exec_status] and [exec_user] here. *)
Record TaskExecution : Type := {
  exec_id : string;
  task_id : string;
  start_time : Z;
  end_time : option Z;
  exec_status : TaskStatus;
  output : option string;
  error : option string;
  exec_user : option string
}.

(** The Python value of a field of each type. *)
Definition of_opt_str (o : option string) : value :=
  match o with Some s => VStr s | None => VNone end.

Definition of_opt_date (o : option Z) : value :=
  match o with Some t => VDate t | None => VNone end.

Definition of_opt_obj (o : option (list (string * string))) : value :=
  match o with Some h => VObj h | None => VNone end.

(** What a constructor accepts for a field of each type. *)
Definition str_field (f : string) (v : value) : result string :=
  match v with VStr s => Ok s | _ => Raise (ValidationError f) end.

Definition opt_str_field (f : string) (v : value) : result (option string) :=
  match v with
  | VNone => Ok None
  | VStr s => Ok (Some s)
  | _ => Raise (ValidationError f)
  end.

Definition bool_field (f : string) (v : value) : result bool :=
  match v with VBool b => Ok b | _ => Raise (ValidationError f) end.

Definition date_field (f : string) (v : value) : result Z :=
  match v with VDate t => Ok t | _ => Raise (ValidationError f) end.

Definition opt_date_field (f : string) (v : value) : result (option Z) :=
  match v with
  | VNone => Ok None
  | VDate t => Ok (Some t)
  | _ => Raise (ValidationError f)
  end.

Definition opt_obj_field (f : string) (v : value)
  : result (option (list (string * string))) :=
  match v with
  | VNone => Ok None
  | VObj h => Ok (Some h)
  | _ => Raise (ValidationError f)
  end.

(** The keyword arguments of [Task(...)], already evaluated. *)
Record TaskArgs : Type := {
  a_id : value; a_name : value; a_schedule : value; a_type : TaskType;
  a_command : value; a_api_url : value; a_api_method : value;
  a_api_headers : value; a_api_body : value; a_prompt : value;
  a_description : value; a_enabled : value; a_do_only_once : value;
  a_last_run : value; a_next_run : value; a_status : TaskStatus;
  a_created_at : value; a_updated_at : value; a_reminder_title : value;
  a_reminder_message : value; a_user : value; a_conversation_id : value
}.

(** Modelled from the spec: the constructor [Task(...)] of [task.py];
    it accepts for each field a value of the type section 3 gives it. *)
Definition Task_init (a : TaskArgs) : result Task :=
  (let? v_id := str_field "id" (a_id a) in
   let? v_name := str_field "name" (a_name a) in
   let? v_schedule := str_field "schedule" (a_schedule a) in
   let? v_command := opt_str_field "command" (a_command a) in
   let? v_api_url := opt_str_field "api_url" (a_api_url a) in
   let? v_api_method := opt_str_field "api_method" (a_api_method a) in
   let? v_api_headers := opt_obj_field "api_headers" (a_api_headers a) in
   let? v_api_body := opt_str_field "api_body" (a_api_body a) in
   let? v_prompt := opt_str_field "prompt" (a_prompt a) in
   let? v_description := opt_str_field "description" (a_description a) in
   let? v_enabled := bool_field "enabled" (a_enabled a) in
   let? v_do_only_once := bool_field "do_only_once" (a_do_only_once a) in
   let? v_last_run := opt_date_field "last_run" (a_last_run a) in
   let? v_next_run := opt_date_field "next_run" (a_next_run a) in
   let? v_created_at := date_field "created_at" (a_created_at a) in
   let? v_updated_at := date_field "updated_at" (a_updated_at a) in
   let? v_reminder_title :=
     opt_str_field "reminder_title" (a_reminder_title a) in
   let? v_reminder_message :=
     opt_str_field "reminder_message" (a_reminder_message a) in
   let? v_user := opt_str_field "user" (a_user a) in
   let? v_conversation_id :=
     opt_str_field "conversation_id" (a_conversation_id a) in
   Ok {| id := v_id; name := v_name; schedule := v_schedule;
         type := a_type a; command := v_command; api_url := v_api_url;
         api_method := v_api_method; api_headers := v_api_headers;
         api_body := v_api_body; prompt := v_prompt;
         description := v_description; enabled := v_enabled;
         do_only_once := v_do_only_once; last_run := v_last_run;
         next_run := v_next_run; status := a_status a;
         created_at := v_created_at; updated_at := v_updated_at;
         reminder_title := v_reminder_title;
         reminder_message := v_reminder_message; user := v_user;
         conversation_id := v_conversation_id |})%pyres.

(** The keyword arguments of [TaskExecution(...)]. *)
Record ExecArgs : Type := {
  x_id : value; x_task_id : value; x_start_time : value;
  x_end_time : value; x_status : TaskStatus; x_output : value;
  x_error : value; x_user : value
}.

(** Modelled from the spec: the constructor [TaskExecution(...)] of
    [task.py]. *)
Definition TaskExecution_init (a : ExecArgs) : result TaskExecution :=
  (let? v_id := str_field "id" (x_id a) in
   let? v_task_id := str_field "task_id" (x_task_id a) in
   let? v_start_time := date_field "start_time" (x_start_time a) in
   let? v_end_time := opt_date_field "end_time" (x_end_time a) in
   let? v_output := opt_str_field "output" (x_output a) in
   let? v_error := opt_str_field "error" (x_error a) in
   let? v_user := opt_str_field "user" (x_user a) in
   Ok {| exec_id := v_id; task_id := v_task_id;
         start_time := v_start_time; end_time := v_end_time;
         exec_status := x_status a; output := v_output; error := v_error;
         exec_user := v_user |})%pyres.

(** ** The persistence layer ([mongo_persistence.py]) *)

Module Mongo.

(** *** Collections, as the driver presents them *)

(** What the methods rely on from [pymongo], as its documentation states
    it: [find_one] and [replace_one] act on the first document that
    matches; [replace_one] with [upsert=True] inserts when none matches
    and keeps the [_id] of the document it replaces; [delete_one] removes
    the first match and counts it; [sort(k, -1)] orders by the BSON
    comparison of the values of [k], largest first, a missing field
    counting as null; [limit(0)] is no limit.  The order among documents
    that tie in a sort is left open by the server: the sort here keeps
    them in the order of the collection. *)

(** The equality filter [{k: s}] for a string [s]. *)
Definition field_is (k s : string) (d : Doc) : bool :=
  bool_decide (d !! k = Some (VStr s)).

(** The empty filter of [find()]. *)
Definition any_doc (d : Doc) : bool := true.

(** A replacement document takes over the [_id] of the document it
    replaces: it is the one field that [replace_one] keeps. *)
Definition replacement (old new : Doc) : Doc :=
  match old !! "_id" with
  | Some i => <["_id" := i]> new
  | None => new
  end.

Fixpoint replace_first (flt : Doc -> bool) (new : Doc) (c : list Doc)
  : option (list Doc) :=
  match c with
  | [] => None
  | d :: c' =>
      if flt d then Some (replacement d new :: c')
      else
        match replace_first flt new c' with
        | Some r => Some (d :: r)
        | None => None
        end
  end.

(** [replace_one(flt, new, upsert=True)]: the first match is replaced;
    without a match [new] is inserted under a fresh [_id]. *)
Definition replace_one_upsert (flt : Doc -> bool) (new : Doc)
    (c : list Doc) (oid : Z) : list Doc * Z :=
  match replace_first flt new c with
  | Some c' => (c', oid)
  | None => (c ++ [<["_id" := VOid oid]> new], oid + 1)
  end.

(** [delete_one(flt)]: the collection without its first match, and
    [deleted_count]. *)
Fixpoint delete_first (flt : Doc -> bool) (c : list Doc) : list Doc * Z :=
  match c with
  | [] => ([], 0)
  | d :: c' =>
      if flt d then (c', 1)
      else let (r, n) := delete_first flt c' in (d :: r, n)
  end.

(** The comparison order of BSON on the values of the model: null, then
    numbers, strings, objects, object ids, booleans, dates. *)
Definition bson_rank (v : value) : Z :=
  match v with
  | VNone => 2
  | VInt _ => 3
  | VStr _ => 4
  | VObj _ => 5
  | VOid _ => 8
  | VBool _ => 9
  | VDate _ => 10
  end.

Fixpoint fields_compare (x y : list (string * string)) : comparison :=
  match x, y with
  | [], [] => Eq
  | [], _ :: _ => Lt
  | _ :: _, [] => Gt
  | (k1, v1) :: x', (k2, v2) :: y' =>
      match String.compare k1 k2 with
      | Eq =>
          match String.compare v1 v2 with
          | Eq => fields_compare x' y'
          | c => c
          end
      | c => c
      end
  end.

Definition bson_compare (a b : value) : comparison :=
  match a, b with
  | VInt x, VInt y => x ?= y
  | VStr x, VStr y => String.compare x y
  | VObj x, VObj y => fields_compare x y
  | VOid x, VOid y => x ?= y
  | VBool x, VBool y => Bool.compare x y
  | VDate x, VDate y => x ?= y
  | _, _ => bson_rank a ?= bson_rank b
  end.

(** A document without the sort field sorts as if the field were null. *)
Definition sort_key (k : string) (d : Doc) : value := default VNone (d !! k).

(** [cursor.sort(k, -1)]: descending in [k]; documents whose keys tie keep
    the order they have in the collection. *)
Fixpoint insert_descending (k : string) (x : Doc) (l : list Doc)
  : list Doc :=
  match l with
  | [] => [x]
  | y :: l' =>
      match bson_compare (sort_key k x) (sort_key k y) with
      | Lt => y :: insert_descending k x l'
      | _ => x :: y :: l'
      end
  end.

Definition sort_descending (k : string) (c : list Doc) : list Doc :=
  foldr (insert_descending k) [] c.

(** [cursor.limit(n)]: a limit of 0 is no limit; of a negative limit the
    driver sends the absolute value. *)
Definition limit (n : Z) (c : list Doc) : list Doc :=
  if n =? 0 then c else take (Z.to_nat (Z.abs n)) c.

(** *** The state of the database object and of the logger *)

Record MongoDatabase : Type := {
  tasks_collection : list Doc;
  executions_collection : list Doc;
  next_oid : Z;
  (** the exception every call of the driver raises while the server
      cannot be reached *)
  server_fault : option exn;
  log : list log_record
}.

Abbreviation M := (Eff MongoDatabase).

Definition add_log (r : log_record) (db : MongoDatabase) : MongoDatabase :=
  {| tasks_collection := tasks_collection db;
     executions_collection := executions_collection db;
     next_oid := next_oid db;
     server_fault := server_fault db;
     log := log db ++ [r] |}.

Definition logger (l : level) (msg : string) : M unit :=
  fun db => (Ok tt, add_log (l, msg) db).

Inductive collection : Type := Tasks | Executions.

Definition docs_of (c : collection) (db : MongoDatabase) : list Doc :=
  match c with
  | Tasks => tasks_collection db
  | Executions => executions_collection db
  end.

Definition with_docs (c : collection) (docs : list Doc) (oid : Z)
    (db : MongoDatabase) : MongoDatabase :=
  match c with
  | Tasks =>
      {| tasks_collection := docs;
         executions_collection := executions_collection db;
         next_oid := oid;
         server_fault := server_fault db;
         log := log db |}
  | Executions =>
      {| tasks_collection := tasks_collection db;
         executions_collection := docs;
         next_oid := oid;
         server_fault := server_fault db;
         log := log db |}
  end.

(** A call of the driver: it raises the fault of the server, if any. *)
Definition driver {A} (op : MongoDatabase -> A * MongoDatabase) : M A :=
  fun db =>
    match server_fault db with
    | Some e => (Raise e, db)
    | None => let (a, db') := op db in (Ok a, db')
    end.

Definition replace_one (c : collection) (flt : Doc -> bool) (new : Doc)
  : M unit :=
  driver (fun db =>
    let (docs, oid) :=
      replace_one_upsert flt new (docs_of c db) (next_oid db) in
    (tt, with_docs c docs oid db)).

Definition find_one (c : collection) (flt : Doc -> bool) : M (option Doc) :=
  driver (fun db => (List.find flt (docs_of c db), db)).

Definition find (c : collection) (flt : Doc -> bool) : M (list Doc) :=
  driver (fun db => (List.filter flt (docs_of c db), db)).

Definition find_sort_limit (c : collection) (flt : Doc -> bool)
    (k : string) (n : Z) : M (list Doc) :=
  driver (fun db =>
    (limit n (sort_descending k (List.filter flt (docs_of c db))), db)).

Definition delete_one (c : collection) (flt : Doc -> bool) : M Z :=
  driver (fun db =>
    let (docs, n) := delete_first flt (docs_of c db) in
    (n, with_docs c docs (next_oid db) db)).

(** *** The methods of [MongoDatabase] *)

Definition _doc_to_task (doc : Doc) : result Task :=
  (let? v_id := getitem doc "id" in
   let? v_name := getitem doc "name" in
   let? v_schedule := getitem doc "schedule" in
   let? v_type0 := getitem doc "type" in
   let? v_type := TaskType_call v_type0 in
   let? v_status :=
     TaskStatus_call
       (dict_get doc "status" (VStr (TaskStatus_value PENDING))) in
   let? v_created_at := getitem doc "created_at" in
   let? v_updated_at := getitem doc "updated_at" in
   Task_init
     {| a_id := v_id;
        a_name := v_name;
        a_schedule := v_schedule;
        a_type := v_type;
        a_command := dict_get doc "command" VNone;
        a_api_url := dict_get doc "api_url" VNone;
        a_api_method := dict_get doc "api_method" VNone;
        a_api_headers := dict_get doc "api_headers" VNone;
        a_api_body := dict_get doc "api_body" VNone;
        a_prompt := dict_get doc "prompt" VNone;
        a_description := dict_get doc "description" VNone;
        a_enabled := dict_get doc "enabled" (VBool true);
        a_do_only_once := dict_get doc "do_only_once" (VBool true);
        a_last_run := dict_get doc "last_run" VNone;
        a_next_run := dict_get doc "next_run" VNone;
        a_status := v_status;
        a_created_at := v_created_at;
        a_updated_at := v_updated_at;
        a_reminder_title := dict_get doc "reminder_title" VNone;
        a_reminder_message := dict_get doc "reminder_message" VNone;
        a_user := dict_get doc "user" VNone;
        a_conversation_id := dict_get doc "conversation_id" VNone |})%pyres.

Definition _doc_to_execution (doc : Doc) : result TaskExecution :=
  (let? v_id := getitem doc "id" in
   let? v_task_id := getitem doc "task_id" in
   let? v_start_time := getitem doc "start_time" in
   let? v_status0 := getitem doc "status" in
   let? v_status := TaskStatus_call v_status0 in
   TaskExecution_init
     {| x_id := v_id;
        x_task_id := v_task_id;
        x_start_time := v_start_time;
        x_end_time := dict_get doc "end_time" VNone;
        x_status := v_status;
        x_output := dict_get doc "output" VNone;
        x_error := dict_get doc "error" VNone;
        x_user := dict_get doc "user" VNone |})%pyres.

(** The document [save_task] builds. *)
Definition task_doc (task : Task) : Doc :=
  list_to_map
    [("id", VStr (id task));
     ("name", VStr (name task));
     ("schedule", VStr (schedule task));
     ("type", VStr (TaskType_value (type task)));
     ("command", of_opt_str (command task));
     ("api_url", of_opt_str (api_url task));
     ("api_method", of_opt_str (api_method task));
     ("api_headers", of_opt_obj (api_headers task));
     ("api_body", of_opt_str (api_body task));
     ("prompt", of_opt_str (prompt task));
     ("description", of_opt_str (description task));
     ("enabled", VBool (enabled task));
     ("do_only_once", VBool (do_only_once task));
     ("last_run", of_opt_date (last_run task));
     ("next_run", of_opt_date (next_run task));
     ("status", VStr (TaskStatus_value (status task)));
     ("created_at", VDate (created_at task));
     ("updated_at", VDate (updated_at task));
     ("reminder_title", of_opt_str (reminder_title task));
     ("reminder_message", of_opt_str (reminder_message task));
     ("user", of_opt_str (user task));
     ("conversation_id", of_opt_str (conversation_id task))].

Definition save_task (task : Task) : M unit :=
  try_except
    (replace_one Tasks (field_is "id" (id task)) (task_doc task))
    (fun e =>
       (logger ERROR
          ("Failed to save task " +:+ id task +:+ ": " +:+ exn_str e) ;;
        raise e)%eff).

Definition get_task (task_id : string) : M (option Task) :=
  try_except
    (let! doc := find_one Tasks (field_is "id" task_id) in
     match doc with
     | None => ret None
     | Some d =>
         if decide (d = ∅) then ret None
         else let! t := lift (_doc_to_task d) in ret (Some t)
     end)%eff
    (fun e =>
       (logger ERROR
          ("Failed to get task " +:+ task_id +:+ ": " +:+ exn_str e) ;;
        ret None)%eff).

Definition get_all_tasks : M (list Task) :=
  try_except
    (let! docs := find Tasks any_doc in
     lift (comprehension _doc_to_task docs))%eff
    (fun e =>
       (logger ERROR ("Failed to get all tasks: " +:+ exn_str e) ;;
        ret [])%eff).

Definition get_tasks_by_user (user_id : string) : M (list Task) :=
  try_except
    (let! docs := find Tasks (field_is "user" user_id) in
     lift (comprehension _doc_to_task docs))%eff
    (fun e =>
       (logger ERROR
          ("Failed to get tasks for user " +:+ user_id +:+ ": "
           +:+ exn_str e) ;;
        ret [])%eff).

Definition delete_task (task_id : string) : M bool :=
  try_except
    (let! deleted_count := delete_one Tasks (field_is "id" task_id) in
     ret (0 <? deleted_count))%eff
    (fun e =>
       (logger ERROR
          ("Failed to delete task " +:+ task_id +:+ ": " +:+ exn_str e) ;;
        ret false)%eff).

(** The document [save_execution] builds. *)
Definition execution_doc (execution : TaskExecution) : Doc :=
  list_to_map
    [("id", VStr (exec_id execution));
     ("task_id", VStr (task_id execution));
     ("start_time", VDate (start_time execution));
     ("end_time", of_opt_date (end_time execution));
     ("status", VStr (TaskStatus_value (exec_status execution)));
     ("output", of_opt_str (output execution));
     ("error", of_opt_str (error execution));
     ("user", of_opt_str (exec_user execution))].

Definition save_execution (execution : TaskExecution) : M unit :=
  try_except
    (replace_one Executions (field_is "id" (exec_id execution))
       (execution_doc execution))
    (fun e =>
       (logger ERROR
          ("Failed to save execution " +:+ exec_id execution +:+ ": "
           +:+ exn_str e) ;;
        raise e)%eff).

(** The default of the parameter [limit] is taken when the caller passes
    none. *)
Definition get_executions (task_id : string) (limit : option Z)
  : M (list TaskExecution) :=
  try_except
    (let! docs :=
       find_sort_limit Executions (field_is "task_id" task_id)
         "start_time" (default 10 limit) in
     lift (comprehension _doc_to_execution docs))%eff
    (fun e =>
       (logger ERROR
          ("Failed to get executions for task " +:+ task_id +:+ ": "
           +:+ exn_str e) ;;
        ret [])%eff).

Definition get_executions_by_user (user_id : string) (limit : option Z)
  : M (list TaskExecution) :=
  try_except
    (let! docs :=
       find_sort_limit Executions (field_is "user" user_id)
         "start_time" (default 50 limit) in
     lift (comprehension _doc_to_execution docs))%eff
    (fun e =>
       (logger ERROR
          ("Failed to get executions for user " +:+ user_id +:+ ": "
           +:+ exn_str e) ;;
        ret [])%eff).

(** *** Vocabulary of the properties *)

(** [d] is the document [new] as the collection holds it: [new] itself,
    up to the [_id] the server manages. *)
Definition stored_as (new d : Doc) : Prop :=
  forall k : string, k <> "_id" -> d !! k = new !! k.

(** The field [k] of the document stored under the id [i]. *)
Definition stored_field (c : list Doc) (i k : string) : option value :=
  match List.find (field_is "id" i) c with
  | Some d => d !! k
  | None => None
  end.


(** A method surfaces the faults of the storage when it raises to its
    caller whenever the server cannot be reached. *)
Definition surfaces_faults {A} (m : M A) : Prop :=
  forall (db : MongoDatabase) (e : exn),
    server_fault db = Some e -> exists e' db', m db = (Raise e', db').

(** A document whose [type] or [status] is a string that is the value of
    no member of the enum. *)
Definition unknown_enum (d : Doc) : Prop :=
  (exists s, d !! "type" = Some (VStr s)
             /\ forall t, TaskType_value t <> s)
  \/ (exists s, d !! "status" = Some (VStr s)
                /\ forall t, TaskStatus_value t <> s).

(** The tasks of the documents of a list that can be read. *)
Definition readable_tasks (docs : list Doc) : list Task :=
  omap (fun d =>
          match _doc_to_task d with
          | Ok t => Some t
          | Raise _ => None
          end) docs.

(** A scan of all tasks passes over the documents that cannot be read and
    returns the others. *)
Definition scan_skips_malformed : Prop :=
  forall db : MongoDatabase,
    server_fault db = None ->
    fst (get_all_tasks db) = Ok (readable_tasks (tasks_collection db)).

(** The order [sort_descending] leaves between a document and the next. *)
Definition not_before (k : string) (d1 d2 : Doc) : Prop :=
  bson_compare (sort_key k d1) (sort_key k d2) <> Lt.

(** The documents whose sort key is [v]: the ties of the sort. *)
Definition tied (k : string) (v : value) (d : Doc) : bool :=
  bool_decide (sort_key k d = v).

(** Most recent first. *)
Definition newest_first (a b : TaskExecution) : Prop :=
  start_time b <= start_time a.

(** A listing never holds more executions than the limit asked for. *)
Definition listing_within_limit : Prop :=
  forall (i : string) (n : Z) (db : MongoDatabase) (es : list TaskExecution),
    fst (get_executions i (Some n) db) = Ok es ->
    Z.of_nat (length es) <= n.

(** The fields of a task that are read with a default of their own, and
    the fields of an execution that are read as null when absent. *)
Definition defaulted_fields : list string :=
  ["enabled"; "do_only_once"; "status"].

Definition nullable_fields : list string :=
  ["end_time"; "output"; "error"; "user"].

(** [d] is the document [new] as the collection holds it, but for the
    fields [ks], which [d] lacks. *)
Definition stored_without (ks : list string) (new d : Doc) : Prop :=
  (forall k : string, k ∈ ks -> d !! k = None)
  /\ (forall k : string, k ∉ ks -> k <> "_id" -> d !! k = new !! k).

(** The task [T] with the defaults in the fields [ks]. *)
Definition defaulted (ks : list string) (T : Task) : Task :=
  {| id := id T; name := name T; schedule := schedule T; type := type T;
     command := command T; api_url := api_url T;
     api_method := api_method T; api_headers := api_headers T;
     api_body := api_body T; prompt := prompt T;
     description := description T;
     enabled := if decide ("enabled" ∈ ks) then true else enabled T;
     do_only_once :=
       if decide ("do_only_once" ∈ ks) then true else do_only_once T;
     last_run := last_run T; next_run := next_run T;
     status := if decide ("status" ∈ ks) then PENDING else status T;
     created_at := created_at T; updated_at := updated_at T;
     reminder_title := reminder_title T;
     reminder_message := reminder_message T; user := user T;
     conversation_id := conversation_id T |}.

(** The execution [E] with null in the fields [ks]. *)
Definition nulled (ks : list string) (E : TaskExecution) : TaskExecution :=
  {| exec_id := exec_id E; task_id := task_id E;
     start_time := start_time E;
     end_time := if decide ("end_time" ∈ ks) then None else end_time E;
     exec_status := exec_status E;
     output := if decide ("output" ∈ ks) then None else output E;
     error := if decide ("error" ∈ ks) then None else error E;
     exec_user := if decide ("user" ∈ ks) then None else exec_user E |}.

(** *** Sample data *)

Definition sample_task : Task :=
  {| id := "t1"; name := "water the plants"; schedule := "* * * * *";
     type := REMINDER; command := None; api_url := None;
     api_method := None; api_headers := None; api_body := None;
     prompt := None; description := Some "daily"; enabled := true;
     do_only_once := false; last_run := None; next_run := Some 2000;
     status := PENDING; created_at := 1000; updated_at := 1000;
     reminder_title := Some "Plants"; reminder_message := Some "Water";
     user := Some "u1"; conversation_id := Some "c1" |}.

Definition sample_execution : TaskExecution :=
  {| exec_id := "e1"; task_id := "t1"; start_time := 1000;
     end_time := None; exec_status := RUNNING; output := None;
     error := None; exec_user := Some "u1" |}.

(** A task document as another writer of the collection left it, with a
    field of its own. *)
Definition foreign_task_doc : Doc :=
  <["_id" := VOid 7]> (<["__v" := VInt 0]> (<["id" := VStr "t1"]> ∅)).

Definition foreign_execution_doc : Doc :=
  <["_id" := VOid 8]> (<["__v" := VInt 0]> (<["id" := VStr "e1"]> ∅)).

Definition empty_db : MongoDatabase :=
  {| tasks_collection := []; executions_collection := []; next_oid := 0;
     server_fault := None; log := [] |}.

Definition foreign_db : MongoDatabase :=
  {| tasks_collection := [foreign_task_doc];
     executions_collection := [foreign_execution_doc];
     next_oid := 9; server_fault := None; log := [] |}.

(** The document of the sample task, and one of a second task whose type
    no member of [TaskType] has. *)
Definition bogus_doc : Doc :=
  <["type" := VStr "bogus"]> (<["id" := VStr "t2"]> (task_doc sample_task)).

Definition mixed_db : MongoDatabase :=
  {| tasks_collection := [task_doc sample_task; bogus_doc];
     executions_collection := []; next_oid := 0;
     server_fault := None; log := [] |}.

(** The sample execution, finished. *)
Definition finished_execution : TaskExecution :=
  {| exec_id := "e1"; task_id := "t1"; start_time := 1000;
     end_time := Some 1500; exec_status := COMPLETED;
     output := Some "watered"; error := None; exec_user := Some "u1" |}.

Definition later_execution : TaskExecution :=
  {| exec_id := "e2"; task_id := "t1"; start_time := 2000;
     end_time := Some 2500; exec_status := COMPLETED;
     output := Some "done"; error := None; exec_user := Some "u1" |}.

Definition history_db : MongoDatabase :=
  {| tasks_collection := [];
     executions_collection :=
       [execution_doc sample_execution; execution_doc later_execution];
     next_oid := 0; server_fault := None; log := [] |}.

(** A third execution, started at the same time as the first. *)
Definition twin_execution : TaskExecution :=
  {| exec_id := "e3"; task_id := "t1"; start_time := 1000;
     end_time := None; exec_status := FAILED; output := None;
     error := Some "exit 1"; exec_user := Some "u1" |}.

Definition tied_db : MongoDatabase :=
  {| tasks_collection := [];
     executions_collection :=
       [execution_doc sample_execution; execution_doc later_execution;
        execution_doc twin_execution];
     next_oid := 0; server_fault := None; log := [] |}.

(** The document of the sample task as an older writer stored it, without
    the three fields that have a default, and the document of the sample
    execution without its nullable fields. *)
Definition legacy_task_doc : Doc :=
  delete "enabled"
    (delete "do_only_once" (delete "status" (task_doc sample_task))).

Definition legacy_execution_doc : Doc :=
  delete "end_time"
    (delete "output"
       (delete "error" (delete "user" (execution_doc sample_execution)))).

Definition legacy_db : MongoDatabase :=
  {| tasks_collection := [legacy_task_doc];
     executions_collection := [legacy_execution_doc];
     next_oid := 0; server_fault := None; log := [] |}.

Definition down (db : MongoDatabase) : MongoDatabase :=
  {| tasks_collection := tasks_collection db;
     executions_collection := executions_collection db;
     next_oid := next_oid db;
     server_fault := Some (ServerSelectionTimeoutError "No servers found");
     log := log db |}.


(** *** The name of the database *)

(** [s.lstrip('/')] *)
Fixpoint lstrip_slash (s : string) : string :=
  match s with
  | EmptyString => EmptyString
  | String c s' => if Ascii.eqb c "/"%char then lstrip_slash s' else s
  end.

(** [c in s] for a character [c] *)
Fixpoint contains_char (c : ascii) (s : string) : bool :=
  match s with
  | EmptyString => false
  | String c' s' => Ascii.eqb c' c || contains_char c s'
  end.

(** [s.split(c)[0]]: what comes before the first [c]. *)
Fixpoint before_char (c : ascii) (s : string) : string :=
  match s with
  | EmptyString => EmptyString
  | String c' s' =>
      if Ascii.eqb c' c then EmptyString else String c' (before_char c s')
  end.

(** Whether [s] starts with a slash. *)
Definition leading_slash (s : string) : bool :=
  match s with
  | EmptyString => false
  | String c _ => Ascii.eqb c "/"%char
  end.

(** The state of the logger before the database object exists. *)
Abbreviation L := (Eff (list log_record)).

Definition log_line (l : level) (msg : string) : L unit :=
  fun records => (Ok tt, records ++ [(l, msg)]).

Section DatabaseName.

(** [urlparse(uri).path] of the standard library, which can raise. *)
Variable urlparse_path : string -> result string.

Definition _extract_database_name_from_uri (uri : string) : L string :=
  try_except
    (let! path := lift (urlparse_path uri) in
     let db_name := lstrip_slash path in
     let db_name :=
       if contains_char "?"%char db_name
       then before_char "?"%char db_name
       else db_name in
     if String.eqb db_name "" then
       (log_line WARNING
          "No database name found in MongoDB URI, using default 'scheduler'" ;;
        ret "scheduler")
     else
       (log_line INFO ("Extracted database name from URI: " +:+ db_name) ;;
        ret db_name))%eff
    (fun e =>
       (log_line WARNING
          ("Failed to extract database name from URI: " +:+ exn_str e
           +:+ ", using default 'scheduler'") ;;
        ret "scheduler")%eff).

(** The choice of [self.database_name] in [__init__]: the name passed, or
    the one of the URI when none is passed. *)
Definition database_name_of (mongo_uri : string)
    (database_name : option string) : L string :=
  match database_name with
  | None => _extract_database_name_from_uri mongo_uri
  | Some n => ret n
  end.

End DatabaseName.

(** *** More vocabulary *)

(** No two documents of a collection have the same [id]. *)
Definition ids_unique (c : list Doc) : Prop :=
  forall i : string, (length (List.filter (field_is "id" i) c) <= 1)%nat.

(** Two states of the database that differ in the log at most. *)
Definition same_data (db db' : MongoDatabase) : Prop :=
  tasks_collection db' = tasks_collection db
  /\ executions_collection db' = executions_collection db
  /\ next_oid db' = next_oid db
  /\ server_fault db' = server_fault db.


(** What [get_task] returns for the document [find_one] gave it. *)
Definition task_of_found (found : option Doc) : option Task :=
  match found with
  | None => None
  | Some d =>
      if decide (d = ∅) then None
      else
        match _doc_to_task d with
        | Ok t => Some t
        | Raise _ => None
        end
  end.

(** A URL parser that takes everything after the third slash of
    [mongodb://host/...] for the path. *)
Fixpoint after_slashes (n : nat) (s : string) : string :=
  match n, s with
  | O, _ => s
  | _, EmptyString => EmptyString
  | S n', String c s' =>
      if Ascii.eqb c "/"%char then
        match n' with
        | O => String c s'
        | _ => after_slashes n' s'
        end
      else after_slashes n s'
  end.

Definition sample_urlparse (uri : string) : result string :=
  Ok (before_char "?"%char (after_slashes 3 uri)).

(** A second task, of another user. *)
Definition other_task : Task :=
  {| id := "t2"; name := "backup"; schedule := "0 3 * * *";
     type := COMMAND; command := Some "tar czf /tmp/b.tgz /srv";
     api_url := None; api_method := None; api_headers := None;
     api_body := None; prompt := None; description := None;
     enabled := true; do_only_once := false; last_run := Some 500;
     next_run := Some 3000; status := COMPLETED; created_at := 100;
     updated_at := 600; reminder_title := None; reminder_message := None;
     user := Some "u2"; conversation_id := None |}.

(** The two sample tasks, saved one after the other. *)
Definition two_tasks_db : MongoDatabase :=
  snd (save_task other_task (snd (save_task sample_task empty_db))).

End Mongo.


(** ** The result notifier ([message_delivery.py]) *)

Module Delivery.

Inductive json : Type :=
  | JNull
  | JBool (b : bool)
  | JStr (s : string).

(** One call of [session.post]. *)
Record request : Type := {
  url : string;
  json_body : list (string * json);
  headers : list (string * string);
  timeout_total : Z
}.

(** What a POST comes to: a response with its status, whose body is read
    by [response.text()] (which can fail in its turn), or an exception of
    the client: [TimeoutError] when the total timeout expires, any other
    for a transport error. *)
Inductive outcome : Type :=
  | Response (status : Z) (text : result string)
  | PostRaises (e : exn).

(** The requests sent so far and the records of the logger. *)
Record World : Type := {
  sent : list request;
  log : list log_record
}.

Abbreviation D := (Eff World).

Definition logger (l : level) (msg : string) : D unit :=
  fun w => (Ok tt, {| sent := sent w; log := log w ++ [(l, msg)] |}).

(** [session.post(url, json=payload, headers=..., timeout=...)] against a
    network [net]. *)
Definition post (net : request -> outcome) (req : request)
  : D (Z * result string) :=
  fun w =>
    let w' := {| sent := sent w ++ [req]; log := log w |} in
    match net req with
    | Response st txt => (Ok (st, txt), w')
    | PostRaises e => (Raise e, w')
    end.

(** [s.rstrip('/')] *)
Fixpoint rstrip_slash (s : string) : string :=
  match s with
  | EmptyString => EmptyString
  | String c s' =>
      match rstrip_slash s' with
      | EmptyString =>
          if Ascii.eqb c "/"%char then EmptyString else String c EmptyString
      | r => String c r
      end
  end.

Record MessageDelivery : Type := {
  librechat_base_url : string;
  task_result_endpoint : string;
  notification_endpoint : string
}.

(** [MessageDelivery(librechat_base_url)] *)
Definition MessageDelivery_init (librechat_base_url : option string)
  : MessageDelivery :=
  let base :=
    rstrip_slash (default "http://localhost:3080" librechat_base_url) in
  {| librechat_base_url := base;
     task_result_endpoint := base +:+ "/api/scheduler/internal/task-result";
     notification_endpoint :=
       base +:+ "/api/scheduler/internal/notification" |}.

(** Truth value of an [Optional[str]]: [None] and the empty string are
    false. *)
Definition truthy (o : option string) : bool :=
  match o with
  | None => false
  | Some s => negb (String.eqb s "")
  end.

Definition json_opt_str (o : option string) : json :=
  match o with Some s => JStr s | None => JNull end.

Definition send_task_result (self : MessageDelivery)
    (net : request -> outcome)
    (user_id conversation_id : option string)
    (task_name task_id result : string)
    (task_type : option string) (success : option bool) : D bool :=
  if negb (truthy user_id) || negb (truthy conversation_id) then
    (logger WARNING
       ("Cannot send message for task " +:+ task_id
        +:+ ": missing user_id or conversation_id") ;;
     ret false)%eff
  else
    let payload :=
      [("userId", json_opt_str user_id);
       ("conversationId", json_opt_str conversation_id);
       ("taskName", JStr task_name);
       ("taskId", JStr task_id);
       ("result", JStr result);
       ("taskType", JStr (default "unknown" task_type));
       ("success", JBool (default true success))] in
    try_except
      (let! response :=
         post net
           {| url := task_result_endpoint self;
              json_body := payload;
              headers := [("Content-Type", "application/json")];
              timeout_total := 10 |} in
       if fst response =? 200 then
         (logger INFO
            ("Successfully sent task result for task " +:+ task_id
             +:+ " to user " +:+ default "None" user_id) ;;
          ret true)
       else
         (let! error_text := lift (snd response) in
          logger ERROR
            ("Failed to send task result for task " +:+ task_id +:+ ": "
             +:+ pretty (fst response) +:+ " - " +:+ error_text) ;;
          ret false))%eff
      (fun e =>
         match e with
         | TimeoutError =>
             (logger ERROR
                ("Timeout sending task result for task " +:+ task_id) ;;
              ret false)%eff
         | _ =>
             (logger ERROR
                ("Error sending task result for task " +:+ task_id +:+ ": "
                 +:+ exn_str e) ;;
              ret false)%eff
         end).

Definition send_task_notification (self : MessageDelivery)
    (net : request -> outcome)
    (user_id conversation_id : option string)
    (task_name task_id : string)
    (notification_type : option string) (details : option string)
  : D bool :=
  if negb (truthy user_id) || negb (truthy conversation_id) then
    ret false
  else
    let payload :=
      [("userId", json_opt_str user_id);
       ("conversationId", json_opt_str conversation_id);
       ("taskName", JStr task_name);
       ("taskId", JStr task_id);
       ("notificationType", JStr (default "started" notification_type));
       ("details", json_opt_str details)] in
    try_except
      (let! response :=
         post net
           {| url := notification_endpoint self;
              json_body := payload;
              headers := [("Content-Type", "application/json")];
              timeout_total := 10 |} in
       if fst response =? 200 then
         (logger INFO
            ("Successfully sent notification for task " +:+ task_id
             +:+ " to user " +:+ default "None" user_id) ;;
          ret true)
       else
         (let! error_text := lift (snd response) in
          logger ERROR
            ("Failed to send notification for task " +:+ task_id +:+ ": "
             +:+ pretty (fst response) +:+ " - " +:+ error_text) ;;
          ret false))%eff
      (fun e =>
         (logger ERROR
            ("Error sending notification for task " +:+ task_id +:+ ": "
             +:+ exn_str e) ;;
          ret false)%eff).

(** An identifier that is absent or empty. *)
Definition missing (o : option string) : Prop := o = None \/ o = Some "".

(** The request [send_task_result] sends. *)
Definition result_request (self : MessageDelivery)
    (user_id conversation_id : option string)
    (task_name task_id result : string)
    (task_type : option string) (success : option bool) : request :=
  {| url := task_result_endpoint self;
     json_body :=
       [("userId", json_opt_str user_id);
        ("conversationId", json_opt_str conversation_id);
        ("taskName", JStr task_name);
        ("taskId", JStr task_id);
        ("result", JStr result);
        ("taskType", JStr (default "unknown" task_type));
        ("success", JBool (default true success))];
     headers := [("Content-Type", "application/json")];
     timeout_total := 10 |}.

(** The request [send_task_notification] sends. *)
Definition notification_request (self : MessageDelivery)
    (user_id conversation_id : option string)
    (task_name task_id : string)
    (notification_type : option string) (details : option string)
  : request :=
  {| url := notification_endpoint self;
     json_body :=
       [("userId", json_opt_str user_id);
        ("conversationId", json_opt_str conversation_id);
        ("taskName", JStr task_name);
        ("taskId", JStr task_id);
        ("notificationType", JStr (default "started" notification_type));
        ("details", json_opt_str details)];
     headers := [("Content-Type", "application/json")];
     timeout_total := 10 |}.

Definition quiet : World := {| sent := []; log := [] |}.

Definition librechat : MessageDelivery := MessageDelivery_init None.

(** A network on which every request is answered with the same outcome. *)
Definition always (o : outcome) (req : request) : outcome := o.


(** [k] slashes. *)
Fixpoint slashes (k : nat) : string :=
  match k with
  | O => EmptyString
  | S k' => String "/"%char (slashes k')
  end.

(** Whether [s] ends with a slash. *)
Fixpoint trailing_slash (s : string) : bool :=
  match s with
  | EmptyString => false
  | String c EmptyString => Ascii.eqb c "/"%char
  | String _ s' => trailing_slash s'
  end.

(** The value of the field [k] of the JSON body of a request. *)
Definition body_field (k : string) (req : request) : option json :=
  match List.find (fun p => String.eqb (fst p) k) (json_body req) with
  | Some p => Some (snd p)
  | None => None
  end.

(** A request that names a user and a conversation, neither empty. *)
Definition addressed (req : request) : Prop :=
  exists u c : string,
    u <> "" /\ c <> ""
    /\ body_field "userId" req = Some (JStr u)
    /\ body_field "conversationId" req = Some (JStr c).

End Delivery.


(** * Properties of the result notifier *)

Module DeliveryFacts.
Import Delivery.

Lemma truthy_false (o : option string) : truthy o = false <-> missing o.
Proof.
  unfold missing. destruct o as [s|]; simpl.
  - rewrite negb_false_iff, String.eqb_eq. split.
    + intros ->. by right.
    + intros [?|[= ->]]; done.
  - split; [by left | done].
Qed.

(** The guard of both operations. *)
Lemma guard_passes (u c : option string) :
  truthy u = true -> truthy c = true ->
  negb (truthy u) || negb (truthy c) = false.
Proof. by intros -> ->. Qed.

Lemma guard_stops (u c : option string) :
  missing u \/ missing c -> negb (truthy u) || negb (truthy c) = true.
Proof.
  intros [H|H]; apply truthy_false in H; rewrite H; simpl; [done|].
  apply orb_true_r.
Qed.

(** C2: with a user and a conversation, [send_task_result] sends exactly
    one POST, never raises, and returns [true] exactly when the POST is
    answered with status 200: another status, a timeout and any transport
    error give [false]; one record is logged either way. *)
Theorem send_task_result_true_iff_200
    (self : MessageDelivery) (net : request -> outcome)
    (user_id conversation_id : option string)
    (task_name task_id result : string)
    (task_type : option string) (success : option bool) (w : World) :
  ~ missing user_id -> ~ missing conversation_id ->
  let req := result_request self user_id conversation_id task_name task_id
               result task_type success in
  exists (b : bool) (r : log_record),
    send_task_result self net user_id conversation_id task_name task_id
      result task_type success w
    = (Ok b, {| sent := sent w ++ [req]; log := log w ++ [r] |})
    /\ (b = true <-> exists text, net req = Response 200 text).
Proof.
  intros Hu Hc req.
  assert (truthy user_id = true) as Tu.
  { destruct (truthy user_id) eqn:E; [done|]. by apply truthy_false in E. }
  assert (truthy conversation_id = true) as Tc.
  { destruct (truthy conversation_id) eqn:E; [done|].
    by apply truthy_false in E. }
  unfold send_task_result. rewrite (guard_passes _ _ Tu Tc).
  subst req. unfold try_except, bind, post, result_request.
  destruct (net _) as [st txt|e] eqn:Hnet; simpl.
  - destruct (st =? 200) eqn:Hst; simpl.
    + apply Z.eqb_eq in Hst as ->.
      eexists true, _. split; [reflexivity|]. split; [eauto | done].
    + apply Z.eqb_neq in Hst.
      destruct txt as [body|e]; simpl.
      * eexists false, _. split; [reflexivity|].
        split; [done | by intros (? & [= -> _])].
      * destruct e; eexists false, _; (split; [reflexivity|]);
          (split; [done | by intros (? & [= -> _])]).
  - destruct e; eexists false, _; (split; [reflexivity|]);
      (split; [done | by intros (? & [=])]).
Qed.

(** A server error, a timeout and a refused connection all come back as
    [false]. *)
Example send_task_result_failures :
  fst (send_task_result librechat (always (Response 500 (Ok "boom")))
         (Some "u1") (Some "c1") "backup" "t1" "done" None None quiet)
  = Ok false
  /\ fst (send_task_result librechat (always (PostRaises TimeoutError))
            (Some "u1") (Some "c1") "backup" "t1" "done" None None quiet)
     = Ok false
  /\ fst (send_task_result librechat
            (always (PostRaises (ClientError "connection refused")))
            (Some "u1") (Some "c1") "backup" "t1" "done" None None quiet)
     = Ok false
  /\ fst (send_task_result librechat
            (always (Response 502 (Raise (ClientError "reset"))))
            (Some "u1") (Some "c1") "backup" "t1" "done" None None quiet)
     = Ok false.
Proof. vm_compute. done. Qed.

(** X15: [send_task_notification] has the same contract as
    [send_task_result]: with a user and a conversation it sends one POST,
    never raises, and returns [true] exactly when the POST is answered
    with status 200; its one handler takes the timeout with the other
    exceptions. *)
Lemma send_task_notification_true_iff_200
    (self : MessageDelivery) (net : request -> outcome)
    (user_id conversation_id : option string)
    (task_name task_id : string)
    (notification_type details : option string) (w : World) :
  ~ missing user_id -> ~ missing conversation_id ->
  let req := notification_request self user_id conversation_id task_name
               task_id notification_type details in
  exists (b : bool) (r : log_record),
    send_task_notification self net user_id conversation_id task_name
      task_id notification_type details w
    = (Ok b, {| sent := sent w ++ [req]; log := log w ++ [r] |})
    /\ (b = true <-> exists text, net req = Response 200 text).
Proof.
  intros Hu Hc req.
  assert (truthy user_id = true) as Tu.
  { destruct (truthy user_id) eqn:E; [done|]. by apply truthy_false in E. }
  assert (truthy conversation_id = true) as Tc.
  { destruct (truthy conversation_id) eqn:E; [done|].
    by apply truthy_false in E. }
  unfold send_task_notification. rewrite (guard_passes _ _ Tu Tc).
  subst req. unfold try_except, bind, post, notification_request.
  destruct (net _) as [st txt|e] eqn:Hnet; simpl.
  - destruct (st =? 200) eqn:Hst; simpl.
    + apply Z.eqb_eq in Hst as ->.
      eexists true, _. split; [reflexivity|]. split; [eauto | done].
    + apply Z.eqb_neq in Hst.
      destruct txt as [body|e]; simpl.
      * eexists false, _. split; [reflexivity|].
        split; [done | by intros (? & [= -> _])].
      * eexists false, _. split; [reflexivity|].
        split; [done | by intros (? & [= -> _])].
  - eexists false, _. split; [reflexivity|].
    split; [done | by intros (? & [=])].
Qed.

(** C3: when the user or the conversation is absent or empty, both
    operations return [false] and send nothing. *)
Theorem no_recipient_no_network
    (self : MessageDelivery) (net : request -> outcome)
    (user_id conversation_id : option string)
    (task_name task_id result : string)
    (task_type notification_type details : option string)
    (success : option bool) (w : World) :
  missing user_id \/ missing conversation_id ->
  (exists w',
     send_task_result self net user_id conversation_id task_name task_id
       result task_type success w = (Ok false, w')
     /\ sent w' = sent w)
  /\ send_task_notification self net user_id conversation_id task_name
       task_id notification_type details w = (Ok false, w).
Proof.
  intros H. apply guard_stops in H.
  unfold send_task_result, send_task_notification. rewrite H.
  split; [|done]. eexists. split; reflexivity.
Qed.

(** Witness of C2: a result for user u1 in conversation c1. *)
Lemma send_task_result_true_iff_200_witness :
  ~ missing (Some "u1") /\ ~ missing (Some "c1") /\
  exists (b : bool) (r : log_record),
    send_task_result librechat (always (Response 200 (Ok "ok")))
      (Some "u1") (Some "c1") "backup" "t1" "done" None None quiet
    = (Ok b,
       {| sent :=
            sent quiet
            ++ [result_request librechat (Some "u1") (Some "c1") "backup"
                  "t1" "done" None None];
          log := log quiet ++ [r] |})
    /\ (b = true <->
        exists text,
          always (Response 200 (Ok "ok"))
            (result_request librechat (Some "u1") (Some "c1") "backup"
               "t1" "done" None None)
          = Response 200 text).
Proof.
  assert (~ missing (Some "u1")) as Hu by (intros [?|?]; discriminate).
  assert (~ missing (Some "c1")) as Hc by (intros [?|?]; discriminate).
  split; [exact Hu|]. split; [exact Hc|].
  exact (send_task_result_true_iff_200 librechat
           (always (Response 200 (Ok "ok"))) (Some "u1") (Some "c1")
           "backup" "t1" "done" None None quiet Hu Hc).
Defined.

(** Witness of C3: a result without a conversation. *)
Lemma no_recipient_no_network_witness :
  (missing (Some "u1") \/ missing (Some "")) /\
  (exists w',
     send_task_result librechat (always (Response 200 (Ok "ok")))
       (Some "u1") (Some "") "backup" "t1" "done" None None quiet
     = (Ok false, w')
     /\ sent w' = sent quiet)
  /\ send_task_notification librechat (always (Response 200 (Ok "ok")))
       (Some "u1") (Some "") "backup" "t1" None None quiet
     = (Ok false, quiet).
Proof.
  assert (missing (Some "u1") \/ missing (Some "")) as H.
  { right. right. reflexivity. }
  split; [exact H|].
  exact (no_recipient_no_network librechat
           (always (Response 200 (Ok "ok"))) (Some "u1") (Some "")
           "backup" "t1" "done" None None None None quiet H).
Defined.

End DeliveryFacts.

Module MongoFacts.
Import Mongo.

#[local] Arguments TaskType_call : simpl never.
#[local] Arguments TaskStatus_call : simpl never.
#[local] Arguments opt_str_field : simpl never.
#[local] Arguments opt_date_field : simpl never.
#[local] Arguments opt_obj_field : simpl never.

(** *** Dictionaries *)









(** *** The driver *)

Lemma driver_healthy {A} (op : MongoDatabase -> A * MongoDatabase)
    (db : MongoDatabase) :
  server_fault db = None -> driver op db = (Ok (fst (op db)), snd (op db)).
Proof. unfold driver. intros ->. by destruct (op db). Qed.

Lemma driver_faulty {A} (op : MongoDatabase -> A * MongoDatabase)
    (db : MongoDatabase) (e : exn) :
  server_fault db = Some e -> driver op db = (Raise e, db).
Proof. unfold driver. by intros ->. Qed.

(** *** Replacing and finding in a collection *)

Lemma replacement_lookup (old new : Doc) (k : string) :
  k <> "_id" -> replacement old new !! k = new !! k.
Proof.
  intros Hk. unfold replacement.
  destruct (old !! "_id"); [|done]. by rewrite lookup_insert_ne.
Qed.

Lemma replacement_stored_as (old new : Doc) :
  stored_as new (replacement old new).
Proof. intros k Hk. by apply replacement_lookup. Qed.

Lemma replacement_keeps_id (old new : Doc) :
  new !! "_id" = None -> replacement old new !! "_id" = old !! "_id".
Proof.
  intros Hn. unfold replacement.
  destruct (old !! "_id") eqn:E; [|done]. by rewrite lookup_insert_eq.
Qed.

Lemma insert_id_stored_as (new : Doc) (v : value) :
  stored_as new (<["_id" := v]> new).
Proof. intros k Hk. by rewrite lookup_insert_ne. Qed.

Lemma find_first (flt : Doc -> bool) (pre post : list Doc) (d : Doc) :
  Forall (fun x => flt x = false) pre -> flt d = true ->
  List.find flt (pre ++ d :: post) = Some d.
Proof.
  induction 1 as [|x pre Hx _ IH]; intros Hd; simpl.
  - by rewrite Hd.
  - rewrite Hx. by apply IH.
Qed.

Lemma find_split (flt : Doc -> bool) (c : list Doc) (d : Doc) :
  List.find flt c = Some d ->
  exists pre post,
    c = pre ++ d :: post /\ Forall (fun x => flt x = false) pre
    /\ flt d = true.
Proof.
  induction c as [|x c IH]; simpl; [done|].
  destruct (flt x) eqn:Hx.
  - intros [= ->]. by exists [], c.
  - intros H. destruct (IH H) as (pre & post & -> & Hpre & Hd).
    exists (x :: pre), post. split; [done|]. split; [|done].
    by constructor.
Qed.

Lemma find_none (flt : Doc -> bool) (c : list Doc) :
  List.find flt c = None -> Forall (fun x => flt x = false) c.
Proof.
  induction c as [|x c IH]; simpl; [by constructor|].
  destruct (flt x) eqn:Hx; [done|]. intros H. constructor; auto.
Qed.

Lemma replace_first_at (flt : Doc -> bool) (new : Doc)
    (pre post : list Doc) (d : Doc) :
  Forall (fun x => flt x = false) pre -> flt d = true ->
  replace_first flt new (pre ++ d :: post)
  = Some (pre ++ replacement d new :: post).
Proof.
  induction 1 as [|x pre Hx _ IH]; intros Hd; simpl.
  - by rewrite Hd.
  - rewrite Hx. by rewrite IH.
Qed.

Lemma replace_first_none (flt : Doc -> bool) (new : Doc) (c : list Doc) :
  Forall (fun x => flt x = false) c -> replace_first flt new c = None.
Proof.
  induction 1 as [|x c Hx _ IH]; simpl; [done|]. by rewrite Hx, IH.
Qed.


(** *** Reading a stored document *)



Lemma field_is_stored_as (new d : Doc) (k s : string) :
  k <> "_id" -> stored_as new d -> field_is k s d = field_is k s new.
Proof. intros Hk H. unfold field_is. by rewrite H. Qed.

Lemma field_is_id_task_doc (T : Task) :
  field_is "id" (id T) (task_doc T) = true.
Proof. unfold field_is. by apply bool_decide_eq_true. Qed.


Lemma field_is_nonempty (k s : string) (d : Doc) :
  field_is k s d = true -> d <> ∅.
Proof.
  unfold field_is. intros H%bool_decide_eq_true ->.
  by rewrite lookup_empty in H.
Qed.

(** *** Saving *)

Lemma save_task_ok (T : Task) (db db' : MongoDatabase) :
  save_task T db = (Ok tt, db') ->
  server_fault db = None
  /\ db' = with_docs Tasks
             (fst (replace_one_upsert (field_is "id" (id T)) (task_doc T)
                     (tasks_collection db) (next_oid db)))
             (snd (replace_one_upsert (field_is "id" (id T)) (task_doc T)
                     (tasks_collection db) (next_oid db)))
             db.
Proof.
  unfold save_task, try_except, replace_one.
  destruct (server_fault db) as [e|] eqn:F.
  - by rewrite (driver_faulty _ _ _ F).
  - rewrite (driver_healthy _ _ F). simpl.
    destruct (replace_one_upsert _ _ _ _). simpl. by intros [= <-].
Qed.

Lemma save_task_healthy (T : Task) (db : MongoDatabase) :
  server_fault db = None -> exists db', save_task T db = (Ok tt, db').
Proof.
  intros F. unfold save_task, try_except, replace_one.
  rewrite (driver_healthy _ _ F). simpl.
  destruct (replace_one_upsert _ _ _ _). simpl. eauto.
Qed.





(** Deleting a task that is not there removes nothing and raises
    nothing; deleting one that is there removes it. *)
Example delete_task_absent_present :
  fst (delete_task "t1" empty_db) = Ok false
  /\ fst (delete_task "t1" (snd (save_task sample_task empty_db))) = Ok true
  /\ tasks_collection
       (snd (delete_task "t1" (snd (save_task sample_task empty_db))))
     = [].
Proof. vm_compute. done. Qed.

(** *** Replacement is wholesale *)

Lemma replace_one_existing (c : collection) (flt : Doc -> bool)
    (new old : Doc) (db : MongoDatabase) :
  server_fault db = None ->
  List.find flt (docs_of c db) = Some old ->
  exists pre post,
    docs_of c db = pre ++ old :: post
    /\ replace_one c flt new db
       = (Ok tt,
          with_docs c (pre ++ replacement old new :: post) (next_oid db) db).
Proof.
  intros F Hfind.
  destruct (find_split _ _ _ Hfind) as (pre & post & Hc & Hpre & Hold).
  exists pre, post. split; [done|].
  unfold replace_one. rewrite (driver_healthy _ _ F).
  unfold replace_one_upsert.
  by rewrite Hc, (replace_first_at _ _ _ _ _ Hpre Hold).
Qed.

Lemma task_doc_no_id (T : Task) : task_doc T !! "_id" = None.
Proof. reflexivity. Qed.

Lemma execution_doc_no_id (E : TaskExecution) :
  execution_doc E !! "_id" = None.
Proof. reflexivity. Qed.

(** C6: a save under an id the collection already holds puts the document
    of the new record in the place of the old one, whole: outside [_id],
    which the server keeps, the stored document has the fields of the new
    record and no other, so that a field the new record omits is absent
    and a field it unsets is null, whatever the old document held.  For
    tasks and for executions. *)
Theorem save_replaces_wholesale
    (T : Task) (E : TaskExecution) (db : MongoDatabase) (old_t old_e : Doc) :
  server_fault db = None ->
  (List.find (field_is "id" (id T)) (tasks_collection db) = Some old_t ->
   exists pre post d,
     tasks_collection db = pre ++ old_t :: post
     /\ save_task T db
        = (Ok tt, with_docs Tasks (pre ++ d :: post) (next_oid db) db)
     /\ (forall k, k <> "_id" -> d !! k = task_doc T !! k)
     /\ d !! "_id" = old_t !! "_id")
  /\ (List.find (field_is "id" (exec_id E)) (executions_collection db)
      = Some old_e ->
      exists pre post d,
        executions_collection db = pre ++ old_e :: post
        /\ save_execution E db
           = (Ok tt,
              with_docs Executions (pre ++ d :: post) (next_oid db) db)
        /\ (forall k, k <> "_id" -> d !! k = execution_doc E !! k)
        /\ d !! "_id" = old_e !! "_id").
Proof.
  intros F. split.
  - intros Ht.
    destruct (replace_one_existing Tasks _ (task_doc T) _ _ F Ht)
      as (pre & post & Hc & Hr).
    exists pre, post, (replacement old_t (task_doc T)).
    split; [done|]. split.
    + unfold save_task, try_except. by rewrite Hr.
    + split; [apply replacement_stored_as|].
      apply replacement_keeps_id, task_doc_no_id.
  - intros He.
    destruct (replace_one_existing Executions _ (execution_doc E) _ _ F He)
      as (pre & post & Hc & Hr).
    exists pre, post, (replacement old_e (execution_doc E)).
    split; [done|]. split.
    + unfold save_execution, try_except. by rewrite Hr.
    + split; [apply replacement_stored_as|].
      apply replacement_keeps_id, execution_doc_no_id.
Qed.

(** Witness of C6: the sample records saved over documents that carry a
    field of another writer. *)
Lemma save_replaces_wholesale_witness :
  server_fault foreign_db = None
  /\ List.find (field_is "id" (id sample_task)) (tasks_collection foreign_db)
     = Some foreign_task_doc
  /\ List.find (field_is "id" (exec_id sample_execution))
       (executions_collection foreign_db)
     = Some foreign_execution_doc
  /\ (exists pre post d,
        tasks_collection foreign_db = pre ++ foreign_task_doc :: post
        /\ save_task sample_task foreign_db
           = (Ok tt,
              with_docs Tasks (pre ++ d :: post) (next_oid foreign_db)
                foreign_db)
        /\ (forall k, k <> "_id" -> d !! k = task_doc sample_task !! k)
        /\ d !! "_id" = foreign_task_doc !! "_id")
  /\ (exists pre post d,
        executions_collection foreign_db
        = pre ++ foreign_execution_doc :: post
        /\ save_execution sample_execution foreign_db
           = (Ok tt,
              with_docs Executions (pre ++ d :: post) (next_oid foreign_db)
                foreign_db)
        /\ (forall k, k <> "_id" ->
                      d !! k = execution_doc sample_execution !! k)
        /\ d !! "_id" = foreign_execution_doc !! "_id").
Proof.
  assert (server_fault foreign_db = None) as F by reflexivity.
  assert (List.find (field_is "id" (id sample_task))
            (tasks_collection foreign_db) = Some foreign_task_doc) as Ht
    by reflexivity.
  assert (List.find (field_is "id" (exec_id sample_execution))
            (executions_collection foreign_db)
          = Some foreign_execution_doc) as He
    by reflexivity.
  split; [exact F|]. split; [exact Ht|]. split; [exact He|].
  destruct (save_replaces_wholesale sample_task sample_execution
              foreign_db foreign_task_doc foreign_execution_doc F)
    as [H1 H2].
  split; [exact (H1 Ht) | exact (H2 He)].
Defined.

(** The field of the other writer is gone after the save. *)
Example stale_field_gone :
  stored_field (tasks_collection foreign_db) "t1" "__v" = Some (VInt 0)
  /\ stored_field (tasks_collection (snd (save_task sample_task foreign_db)))
       "t1" "__v" = None
  /\ stored_field (tasks_collection (snd (save_task sample_task foreign_db)))
       "t1" "_id" = Some (VOid 7).
Proof. vm_compute. done. Qed.

(** *** The timestamps of a task are the caller's *)




(** *** Faults of the storage *)

Ltac faulty F :=
  unfold try_except, bind, find_one, find, find_sort_limit, delete_one,
    replace_one;
  rewrite (driver_faulty _ _ _ F); simpl; eauto.

(** C4, as the code has it: while the server cannot be reached, the two
    saves log and raise again the exception of the driver, the cause
    itself; every read and the delete log it and return what they return
    for absent data: [None], the empty list, [False]. *)
Theorem storage_fault_policy (db : MongoDatabase) (e : exn)
    (T : Task) (E : TaskExecution) (i u : string) (n : option Z) :
  server_fault db = Some e ->
  (exists msg, save_task T db = (Raise e, add_log (ERROR, msg) db))
  /\ (exists msg, save_execution E db = (Raise e, add_log (ERROR, msg) db))
  /\ (exists msg, get_task i db = (Ok None, add_log (ERROR, msg) db))
  /\ (exists msg, get_all_tasks db = (Ok [], add_log (ERROR, msg) db))
  /\ (exists msg, get_tasks_by_user u db = (Ok [], add_log (ERROR, msg) db))
  /\ (exists msg, delete_task i db = (Ok false, add_log (ERROR, msg) db))
  /\ (exists msg, get_executions i n db = (Ok [], add_log (ERROR, msg) db))
  /\ (exists msg,
        get_executions_by_user u n db = (Ok [], add_log (ERROR, msg) db)).
Proof.
  intros F. repeat split.
  - unfold save_task. faulty F.
  - unfold save_execution. faulty F.
  - unfold get_task. faulty F.
  - unfold get_all_tasks. faulty F.
  - unfold get_tasks_by_user. faulty F.
  - unfold delete_task. faulty F.
  - unfold get_executions. faulty F.
  - unfold get_executions_by_user. faulty F.
Qed.

Lemma storage_fault_policy_witness :
  server_fault (down empty_db)
  = Some (ServerSelectionTimeoutError "No servers found")
  /\ (exists msg,
        save_task sample_task (down empty_db)
        = (Raise (ServerSelectionTimeoutError "No servers found"),
           add_log (ERROR, msg) (down empty_db)))
  /\ (exists msg,
        get_task "t1" (down empty_db)
        = (Ok None, add_log (ERROR, msg) (down empty_db))).
Proof.
  assert (server_fault (down empty_db)
          = Some (ServerSelectionTimeoutError "No servers found")) as F
    by reflexivity.
  split; [exact F|].
  destruct (storage_fault_policy (down empty_db) _ sample_task
              sample_execution "t1" "u1" None F) as (H1 & _ & H3 & _).
  split; [exact H1 | exact H3].
Defined.

(** Counterexample to C4 as stated: [get_task] does not surface a fault;
    its caller gets [None], as for a task that does not exist. *)
Lemma get_task_hides_fault : ~ surfaces_faults (get_task "t1").
Proof.
  intros H.
  destruct (H (down empty_db) _ eq_refl) as (e' & db' & Hget).
  vm_compute in Hget. discriminate.
Qed.

(** *** Documents that cannot be read *)

Lemma TaskType_call_unknown (s : string) :
  (forall t, TaskType_value t <> s) ->
  exists e, TaskType_call (VStr s) = Raise e.
Proof.
  intros H. unfold TaskType_call, TaskType_members.
  cbn [List.find TaskType_value].
  repeat match goal with
  | |- context [String.eqb ?a s] =>
      destruct (String.eqb_spec a s) as [Heq|_];
      [ exfalso;
        first [ exact (H COMMAND Heq) | exact (H API Heq)
              | exact (H AI_PROMPT Heq) | exact (H REMINDER Heq) ] |]
  end.
  eauto.
Qed.

Lemma TaskStatus_call_unknown (s : string) :
  (forall t, TaskStatus_value t <> s) ->
  exists e, TaskStatus_call (VStr s) = Raise e.
Proof.
  intros H. unfold TaskStatus_call, TaskStatus_members.
  cbn [List.find TaskStatus_value].
  repeat match goal with
  | |- context [String.eqb ?a s] =>
      destruct (String.eqb_spec a s) as [Heq|_];
      [ exfalso;
        first [ exact (H PENDING Heq) | exact (H RUNNING Heq)
              | exact (H COMPLETED Heq) | exact (H FAILED Heq)
              | exact (H CANCELLED Heq) ] |]
  end.
  eauto.
Qed.

(** Reading a document with an unknown [type] or [status] raises. *)
Lemma doc_to_task_unknown_enum (d : Doc) :
  unknown_enum d -> exists e, _doc_to_task d = Raise e.
Proof.
  intros Hd. unfold _doc_to_task.
  destruct (getitem d "id") as [v1|]; simpl; [|eauto].
  destruct (getitem d "name") as [v2|]; simpl; [|eauto].
  destruct (getitem d "schedule") as [v3|]; simpl; [|eauto].
  destruct (getitem d "type") as [v4|] eqn:Htype; simpl; [|eauto].
  destruct Hd as [(s & Hs & Hno)|(s & Hs & Hno)].
  - unfold getitem in Htype. rewrite Hs in Htype. injection Htype as <-.
    destruct (TaskType_call_unknown s Hno) as (e & ->). simpl. eauto.
  - destruct (TaskType_call v4); simpl; [|eauto].
    unfold dict_get. rewrite Hs. simpl.
    destruct (TaskStatus_call_unknown s Hno) as (e & ->). simpl. eauto.
Qed.

Lemma comprehension_raises {A B} (f : A -> result B) (l : list A) (x : A)
    (e : exn) :
  In x l -> f x = Raise e -> exists e', comprehension f l = Raise e'.
Proof.
  induction l as [|y l IH]; simpl; [done|].
  intros [->|Hin] Hx.
  - rewrite Hx. eauto.
  - destruct (f y); [|eauto].
    destruct (IH Hin Hx) as (e' & ->). eauto.
Qed.

(** C9, as the code has it: a document with an unknown [type] or [status]
    makes the whole scan that meets it fail: [get_all_tasks] and
    [get_tasks_by_user] log one error and return the empty list, and
    [get_task] of that document logs one error and returns [None]. *)
Theorem scan_aborts_on_malformed (db : MongoDatabase) (d : Doc)
    (i u : string) :
  server_fault db = None ->
  In d (tasks_collection db) ->
  unknown_enum d ->
  (exists msg, get_all_tasks db = (Ok [], add_log (ERROR, msg) db))
  /\ (field_is "user" u d = true ->
      exists msg, get_tasks_by_user u db = (Ok [], add_log (ERROR, msg) db))
  /\ (List.find (field_is "id" i) (tasks_collection db) = Some d ->
      exists msg, get_task i db = (Ok None, add_log (ERROR, msg) db)).
Proof.
  intros F Hin Hd.
  destruct (doc_to_task_unknown_enum d Hd) as (e & He).
  split; [|split].
  - unfold get_all_tasks, try_except, bind, find.
    rewrite (driver_healthy _ _ F). simpl.
    destruct (comprehension_raises _doc_to_task
                (List.filter any_doc (tasks_collection db)) d e)
      as (e' & He'); [|done|].
    { apply filter_In. by split. }
    unfold lift. rewrite He'. simpl. eauto.
  - intros Hu. unfold get_tasks_by_user, try_except, bind, find.
    rewrite (driver_healthy _ _ F). simpl.
    destruct (comprehension_raises _doc_to_task
                (List.filter (field_is "user" u) (tasks_collection db)) d e)
      as (e' & He'); [|done|].
    { apply filter_In. by split. }
    unfold lift. rewrite He'. simpl. eauto.
  - intros Hfind. unfold get_task, try_except, bind, find_one.
    rewrite (driver_healthy _ _ F). simpl. rewrite Hfind.
    destruct (find_split _ _ _ Hfind) as (_ & _ & _ & _ & Hid).
    apply field_is_nonempty in Hid. rewrite decide_False by done.
    unfold lift. rewrite He. simpl. eauto.
Qed.

Lemma bogus_doc_unknown_enum : unknown_enum bogus_doc.
Proof.
  left. exists "bogus". split; [reflexivity|]. intros []; discriminate.
Defined.

Lemma scan_aborts_on_malformed_witness :
  server_fault mixed_db = None
  /\ In bogus_doc (tasks_collection mixed_db)
  /\ unknown_enum bogus_doc
  /\ exists msg,
       get_all_tasks mixed_db = (Ok [], add_log (ERROR, msg) mixed_db).
Proof.
  assert (server_fault mixed_db = None) as F by reflexivity.
  assert (In bogus_doc (tasks_collection mixed_db)) as Hin.
  { right. left. reflexivity. }
  split; [exact F|]. split; [exact Hin|].
  split; [exact bogus_doc_unknown_enum|].
  exact (proj1 (scan_aborts_on_malformed mixed_db bogus_doc "t2" "u1"
                  F Hin bogus_doc_unknown_enum)).
Defined.

(** Counterexample to C9 as stated: with one well-formed document and one
    of unknown type, the scan returns no task, not the well-formed one. *)
Lemma malformed_record_aborts_scan : ~ scan_skips_malformed.
Proof.
  intros H. specialize (H mixed_db eq_refl).
  vm_compute in H. discriminate.
Qed.

(** *** The sort of the cursor *)

Lemma fields_compare_antisym (x y : list (string * string)) :
  fields_compare y x = CompOpp (fields_compare x y).
Proof.
  revert y. induction x as [|[k1 v1] x IH]; intros [|[k2 v2] y]; try done.
  simpl. rewrite (String.compare_antisym k1 k2).
  destruct (String.compare k2 k1); simpl; try done.
  rewrite (String.compare_antisym v1 v2).
  destruct (String.compare v2 v1); simpl; auto.
Qed.

Lemma bool_compare_antisym (a b : bool) :
  Bool.compare b a = CompOpp (Bool.compare a b).
Proof. by destruct a, b. Qed.

Lemma bson_compare_antisym (a b : value) :
  bson_compare b a = CompOpp (bson_compare a b).
Proof.
  destruct a, b; try reflexivity; simpl.
  - apply bool_compare_antisym.
  - apply Z.compare_antisym.
  - apply String.compare_antisym.
  - apply fields_compare_antisym.
  - apply Z.compare_antisym.
  - apply Z.compare_antisym.
Qed.

Lemma not_before_flip (k : string) (x y : Doc) :
  bson_compare (sort_key k x) (sort_key k y) = Lt -> not_before k y x.
Proof.
  unfold not_before. intros H.
  by rewrite bson_compare_antisym, H.
Qed.

Lemma insert_descending_head (k : string) (x y : Doc) (l : list Doc) :
  not_before k y x -> HdRel (not_before k) y l ->
  HdRel (not_before k) y (insert_descending k x l).
Proof.
  intros Hyx Hl. destruct l as [|z l]; simpl; [by constructor|].
  destruct (bson_compare (sort_key k x) (sort_key k z));
    constructor; try done.
  all: by inversion Hl.
Qed.

Lemma insert_descending_sorted (k : string) (x : Doc) (l : list Doc) :
  Sorted (not_before k) l -> Sorted (not_before k) (insert_descending k x l).
Proof.
  induction 1 as [|y l Hl IH Hy]; simpl; [by repeat constructor|].
  destruct (bson_compare (sort_key k x) (sort_key k y)) eqn:Hc.
  - constructor; [by constructor|]. constructor.
    unfold not_before. by rewrite Hc.
  - constructor; [done|].
    apply insert_descending_head; [|done]. by apply not_before_flip.
  - constructor; [by constructor|]. constructor.
    unfold not_before. by rewrite Hc.
Qed.

Lemma sort_descending_sorted (k : string) (c : list Doc) :
  Sorted (not_before k) (sort_descending k c).
Proof.
  induction c as [|x c IH]; simpl; [constructor|].
  by apply insert_descending_sorted.
Qed.

Lemma insert_descending_perm (k : string) (x : Doc) (l : list Doc) :
  Permutation (x :: l) (insert_descending k x l).
Proof.
  induction l as [|y l IH]; simpl; [done|].
  destruct (bson_compare (sort_key k x) (sort_key k y)); try done.
  rewrite <- IH. apply perm_swap.
Qed.

Lemma sort_descending_perm (k : string) (c : list Doc) :
  Permutation c (sort_descending k c).
Proof.
  induction c as [|x c IH]; simpl; [done|].
  rewrite <- insert_descending_perm. by constructor.
Qed.

Lemma take_sorted {A} (R : A -> A -> Prop) (n : nat) (l : list A) :
  Sorted R l -> Sorted R (take n l).
Proof.
  intros H. revert n.
  induction H as [|x l Hl IH Hx]; intros [|n]; simpl; try constructor.
  - apply IH.
  - destruct Hx as [|y l' Hxy]; destruct n; simpl; by constructor.
Qed.

Lemma limit_sorted (R : Doc -> Doc -> Prop) (n : Z) (l : list Doc) :
  Sorted R l -> Sorted R (limit n l).
Proof.
  intros H. unfold limit. destruct (n =? 0); [done|]. by apply take_sorted.
Qed.

Lemma limit_length (n : Z) (l : list Doc) :
  1 <= n -> Z.of_nat (length (limit n l)) <= n.
Proof.
  intros Hn. unfold limit.
  destruct (Z.eqb_spec n 0) as [->|_]; [lia|].
  rewrite length_take. lia.
Qed.

Lemma limit_In (n : Z) (l : list Doc) (d : Doc) :
  In d (limit n l) -> In d l.
Proof.
  unfold limit. destruct (n =? 0); [done|].
  rewrite <- !list_elem_of_In. apply subseteq_take.
Qed.

Lemma bson_compare_refl (a : value) : bson_compare a a = Eq.
Proof.
  pose proof (bson_compare_antisym a a) as H.
  by destruct (bson_compare a a).
Qed.

(** The sort is stable: the documents that tie come out in the order in
    which they went in. *)
Lemma insert_descending_stable (k : string) (v : value) (x : Doc)
    (l : list Doc) :
  List.filter (tied k v) (insert_descending k x l)
  = List.filter (tied k v) (x :: l).
Proof.
  induction l as [|y l IH]; [done|]. simpl.
  destruct (bson_compare (sort_key k x) (sort_key k y)) eqn:Hc; try done.
  simpl. rewrite IH. simpl.
  destruct (tied k v x) eqn:Hx, (tied k v y) eqn:Hy; try done.
  apply bool_decide_eq_true in Hx, Hy.
  rewrite Hx, Hy, bson_compare_refl in Hc. discriminate.
Qed.

Lemma sort_descending_stable (k : string) (v : value) (c : list Doc) :
  List.filter (tied k v) (sort_descending k c) = List.filter (tied k v) c.
Proof.
  induction c as [|x c IH]; [done|]. simpl.
  rewrite insert_descending_stable. simpl. by rewrite IH.
Qed.

(** *** Reading executions *)

Ltac bind_inv H :=
  repeat match type of H with
  | rbind ?r _ = Ok _ =>
      let E := fresh "E" in
      destruct r eqn:E; cbn [rbind] in H; [|discriminate H]
  end.

Lemma getitem_Ok (d : Doc) (k : string) (v : value) :
  getitem d k = Ok v -> d !! k = Some v.
Proof. unfold getitem. destruct (d !! k); by intros [= ->]. Qed.

Lemma str_field_Ok (f : string) (v : value) (s : string) :
  str_field f v = Ok s -> v = VStr s.
Proof. destruct v; simpl; try done. by intros [= ->]. Qed.

Lemma date_field_Ok (f : string) (v : value) (t : Z) :
  date_field f v = Ok t -> v = VDate t.
Proof. destruct v; simpl; try done. by intros [= ->]. Qed.

(** What a document that reads as the execution [e] holds. *)
Lemma doc_to_execution_Ok (d : Doc) (e : TaskExecution) :
  _doc_to_execution d = Ok e ->
  d !! "task_id" = Some (VStr (task_id e))
  /\ d !! "start_time" = Some (VDate (start_time e))
  /\ opt_str_field "user" (dict_get d "user" VNone) = Ok (exec_user e).
Proof.
  unfold _doc_to_execution, TaskExecution_init.
  cbn [x_id x_task_id x_start_time x_end_time x_status x_output x_error
       x_user].
  intros H. bind_inv H. injection H as <-. simpl.
  repeat match goal with
  | E : getitem _ _ = Ok _ |- _ => apply getitem_Ok in E
  | E : str_field _ _ = Ok _ |- _ => apply str_field_Ok in E; subst
  | E : date_field _ _ = Ok _ |- _ => apply date_field_Ok in E; subst
  end.
  done.
Qed.

Lemma comprehension_Ok {A B} (f : A -> result B) (l : list A)
    (ys : list B) :
  comprehension f l = Ok ys <-> Forall2 (fun x y => f x = Ok y) l ys.
Proof.
  revert ys. induction l as [|x l IH]; intros ys; simpl.
  - split; [intros [= <-]; constructor | by inversion 1].
  - split.
    + destruct (f x) as [y|] eqn:Hx; [|done].
      destruct (comprehension f l) as [ys'|]; [|done].
      intros [= <-]. constructor; [done|]. by apply IH.
    + inversion 1 as [|? y ? ys' Hx Hl]; subst.
      rewrite Hx. apply IH in Hl. by rewrite Hl.
Qed.

Lemma Forall2_sorted {A B} (P : A -> B -> Prop) (R : A -> A -> Prop)
    (S : B -> B -> Prop) (l : list A) (ys : list B) :
  (forall a1 a2 b1 b2, P a1 b1 -> P a2 b2 -> R a1 a2 -> S b1 b2) ->
  Forall2 P l ys -> Sorted R l -> Sorted S ys.
Proof.
  intros HRS H. induction H as [|a b l ys Hab Hl IH]; [constructor|].
  intros Hs. apply Sorted_inv in Hs as [Hs Hhd].
  constructor; [by apply IH|].
  destruct Hl as [|a' b' l ys Hab' _]; constructor.
  apply HdRel_inv in Hhd. eauto.
Qed.

Lemma Forall2_In_l {A B} (P Q : A -> B -> Prop) (l : list A)
    (ys : list B) :
  (forall x y, In x l -> P x y -> Q x y) ->
  Forall2 P l ys -> Forall2 Q l ys.
Proof.
  intros HPQ H. induction H as [|x y l ys Hxy _ IH]; constructor.
  - apply HPQ; [by left | done].
  - apply IH. intros ?? Hin. apply HPQ. by right.
Qed.

Lemma newest_first_trans : Relations_1.Transitive newest_first.
Proof. unfold newest_first. intros a b c ??. lia. Qed.

(** The body that both listings share: the documents under a filter,
    sorted and cut, then read; whatever is raised gives the empty list. *)
Lemma listing_body (flt : Doc -> bool) (n : Z) (db : MongoDatabase)
    (h : exn -> M (list TaskExecution)) :
  (forall e db0, exists db1, h e db0 = (Ok [], db1)) ->
  exists es db',
    try_except
      (let! docs := find_sort_limit Executions flt "start_time" n in
       lift (comprehension _doc_to_execution docs))%eff h db
    = (Ok es, db')
    /\ (es = []
        \/ Forall2 (fun d e => _doc_to_execution d = Ok e)
             (limit n (sort_descending "start_time"
                         (List.filter flt (executions_collection db))))
             es).
Proof.
  intros Hh. unfold try_except, bind, find_sort_limit.
  destruct (server_fault db) as [e|] eqn:F.
  - rewrite (driver_faulty _ _ _ F).
    destruct (Hh e db) as (db1 & ->). eauto.
  - rewrite (driver_healthy _ _ F). simpl. unfold lift.
    destruct (comprehension _ _) as [es|e] eqn:Hc.
    + exists es, db. split; [done|]. right. by apply comprehension_Ok.
    + destruct (Hh e db) as (db1 & ->). eauto.
Qed.

(** What the executions of a listing have in common. *)
Lemma listing_props (flt : Doc -> bool) (n : Z) (c : list Doc)
    (es : list TaskExecution) :
  1 <= n ->
  Forall2 (fun d e => _doc_to_execution d = Ok e)
    (limit n (sort_descending "start_time" (List.filter flt c))) es ->
  Z.of_nat (length es) <= n
  /\ Forall2 (fun d e => flt d = true /\ _doc_to_execution d = Ok e)
       (limit n (sort_descending "start_time" (List.filter flt c))) es
  /\ StronglySorted newest_first es.
Proof.
  intros Hn H. split; [|split].
  - rewrite <- (Forall2_length _ _ _ H). by apply limit_length.
  - eapply Forall2_In_l; [|exact H]. intros d e Hd He. split; [|done].
    apply limit_In in Hd.
    rewrite <- list_elem_of_In, <- sort_descending_perm in Hd.
    rewrite list_elem_of_In in Hd. by apply filter_In in Hd as [_ ?].
  - apply Sorted_StronglySorted; [apply newest_first_trans|].
    eapply Forall2_sorted; [|exact H|].
    2: apply limit_sorted, sort_descending_sorted.
    intros d1 d2 e1 e2 (_ & H1 & _)%doc_to_execution_Ok
      (_ & H2 & _)%doc_to_execution_Ok.
    unfold not_before, sort_key, newest_first. rewrite H1, H2. simpl.
    intros Hc. by apply Z.compare_ge_iff.
Qed.

Lemma Forall2_right {A B} (P : A -> B -> Prop) (Q : B -> Prop)
    (l : list A) (ys : list B) :
  (forall x y, P x y -> Q y) -> Forall2 P l ys -> Forall Q ys.
Proof. intros HPQ. induction 1; constructor; eauto. Qed.

Lemma field_is_true (k s : string) (d : Doc) :
  field_is k s d = true -> d !! k = Some (VStr s).
Proof. unfold field_is. by intros H%bool_decide_eq_true. Qed.

Lemma listed_task_id (i : string) (d : Doc) (e : TaskExecution) :
  field_is "task_id" i d = true /\ _doc_to_execution d = Ok e ->
  task_id e = i.
Proof.
  intros [Hi%field_is_true (He & _)%doc_to_execution_Ok]. congruence.
Qed.

Lemma listed_user (u : string) (d : Doc) (e : TaskExecution) :
  field_is "user" u d = true /\ _doc_to_execution d = Ok e ->
  exec_user e = Some u.
Proof.
  intros [Hu%field_is_true (_ & _ & He)%doc_to_execution_Ok].
  unfold dict_get, opt_str_field in He. rewrite Hu in He. simpl in He.
  congruence.
Qed.

(** C5, as the code has it: for a limit of at least 1 (10 when none is
    passed) [get_executions] returns, and never raises, at most that many
    executions, all of the task asked for, most recent first;
    [get_executions_by_user] does the same for the executions of a user,
    with 50 for the limit that is not passed. *)
Theorem listings_bounded_and_ordered (i u : string) (lim : option Z)
    (db : MongoDatabase) :
  (1 <= default 10 lim ->
   exists es db',
     get_executions i lim db = (Ok es, db')
     /\ Z.of_nat (length es) <= default 10 lim
     /\ Forall (fun e => task_id e = i) es
     /\ StronglySorted newest_first es)
  /\ (1 <= default 50 lim ->
      exists es db',
        get_executions_by_user u lim db = (Ok es, db')
        /\ Z.of_nat (length es) <= default 50 lim
        /\ Forall (fun e => exec_user e = Some u) es
        /\ StronglySorted newest_first es).
Proof.
  split; intros Hn.
  - unfold get_executions.
    edestruct (listing_body (field_is "task_id" i) (default 10 lim) db)
      as (es & db' & -> & [->|H]).
    { intros e db0. unfold bind, logger, ret. eauto. }
    + exists [], db'. repeat split; [simpl; lia | constructor..].
    + exists es, db'. split; [done|].
      destruct (listing_props _ _ _ _ Hn H) as (Hlen & Hflt & Hs).
      repeat split; [done| |done].
      eapply Forall2_right; [|exact Hflt]. intros d e. apply listed_task_id.
  - unfold get_executions_by_user.
    edestruct (listing_body (field_is "user" u) (default 50 lim) db)
      as (es & db' & -> & [->|H]).
    { intros e db0. unfold bind, logger, ret. eauto. }
    + exists [], db'. repeat split; [simpl; lia | constructor..].
    + exists es, db'. split; [done|].
      destruct (listing_props _ _ _ _ Hn H) as (Hlen & Hflt & Hs).
      repeat split; [done| |done].
      eapply Forall2_right; [|exact Hflt]. intros d e. apply listed_user.
Qed.

Lemma listings_bounded_and_ordered_witness :
  1 <= default 10 (Some 1)
  /\ exists es db',
       get_executions "t1" (Some 1) history_db = (Ok es, db')
       /\ Z.of_nat (length es) <= default 10 (Some 1)
       /\ Forall (fun e => task_id e = "t1") es
       /\ StronglySorted newest_first es.
Proof.
  assert (1 <= default 10 (Some 1)) as Hn by (simpl; lia).
  split; [exact Hn|].
  exact (proj1 (listings_bounded_and_ordered "t1" "u1" (Some 1) history_db)
           Hn).
Defined.

(** The scenarios of the specification: the later execution comes first,
    and a limit cuts the listing. *)
Example later_execution_first :
  fst (get_executions "t1" None history_db)
  = Ok [later_execution; sample_execution].
Proof. vm_compute. reflexivity. Qed.

Example limit_one :
  fst (get_executions_by_user "u1" (Some 1) history_db)
  = Ok [later_execution].
Proof. vm_compute. reflexivity. Qed.

(** An execution saved when it starts and again when it ends is listed
    once, as it ended. *)
Example execution_updated_in_place :
  fst (get_executions "t1" (Some 10)
         (snd (save_execution finished_execution
                 (snd (save_execution sample_execution
                         (snd (save_task sample_task empty_db)))))))
  = Ok [finished_execution].
Proof. vm_compute. reflexivity. Qed.

(** Counterexample to C5 as stated: a limit of 0 is no limit to the
    cursor; the listing holds both executions of the task. *)
Lemma limit_zero_lists_all : ~ listing_within_limit.
Proof.
  intros H.
  specialize (H "t1" 0 history_db [later_execution; sample_execution]).
  assert (Z.of_nat 2 <= 0) as Habs; [|lia].
  apply H. vm_compute. reflexivity.
Qed.

(** *** Listings depend on the stored executions alone *)



(** Executions started at the same time come in the order in which the
    collection holds them. *)
Example tie_in_stored_order :
  fst (get_executions "t1" None tied_db)
  = Ok [later_execution; sample_execution; twin_execution].
Proof. vm_compute. reflexivity. Qed.

(** *** Absent fields *)

Lemma subset_not_listed (ks fields : list string) (k : string) :
  ks ⊆ fields -> k ∉ fields -> k ∉ ks.
Proof. intros Hsub Hk Hin. by apply Hk, Hsub. Qed.

Lemma not_listed (fields : list string) (k : string) :
  bool_decide (k ∉ fields) = true -> k ∉ fields.
Proof. apply bool_decide_eq_true_1. Qed.

(** The lookups of a reader in a document [d] that lacks some of the
    fields that have a default: a key that has none is found as stored; a
    key that has one is absent or found as stored. *)
Ltac stored_keys d Hd Hsub :=
  repeat match goal with
  | |- context [d !! ?k] =>
      rewrite (proj2 Hd k)
        by first [ done
                 | apply (subset_not_listed _ _ _ Hsub), not_listed;
                   vm_compute; reflexivity ]
  end.

Ltac absent_or_stored Hd k :=
  let H := fresh "H" in
  destruct (decide (k ∈ _)) as [H|H];
  [ rewrite ?(proj1 Hd k H) | rewrite ?(proj2 Hd k H) by done ].

Lemma TaskStatus_call_default :
  TaskStatus_call (default (VStr (TaskStatus_value PENDING)) None)
  = Ok PENDING.
Proof. reflexivity. Qed.

Lemma bool_field_default (f : string) :
  bool_field f (default (VBool true) None) = Ok true.
Proof. reflexivity. Qed.

Lemma opt_str_field_default (f : string) :
  opt_str_field f (default VNone None) = Ok None.
Proof. reflexivity. Qed.

Lemma opt_date_field_default (f : string) :
  opt_date_field f (default VNone None) = Ok None.
Proof. reflexivity. Qed.

(** One step of a reader that succeeded: the step succeeded. *)
Ltac step H :=
  match type of H with
  | rbind ?X _ = Ok _ =>
      let E := fresh "E" in
      destruct X eqn:E; cbn [rbind] in H |- *; [|discriminate H]
  end.

Lemma doc_to_task_absent (ks : list string) (T : Task) (d0 d : Doc) :
  ks ⊆ defaulted_fields -> _doc_to_task d0 = Ok T ->
  stored_without ks d0 d ->
  _doc_to_task d = Ok (defaulted ks T).
Proof.
  intros Hsub Hread Hd. revert Hread.
  unfold _doc_to_task, Task_init, getitem, dict_get.
  cbn [a_id a_name a_schedule a_type a_command a_api_url a_api_method
       a_api_headers a_api_body a_prompt a_description a_enabled
       a_do_only_once a_last_run a_next_run a_status a_created_at
       a_updated_at a_reminder_title a_reminder_message a_user
       a_conversation_id].
  stored_keys d Hd Hsub.
  unfold defaulted.
  absent_or_stored Hd "enabled"; absent_or_stored Hd "do_only_once";
    absent_or_stored Hd "status";
    rewrite ?TaskStatus_call_default, ?bool_field_default;
    intros Hread; repeat step Hread; injection Hread as <-; reflexivity.
Qed.

Lemma doc_to_execution_absent (ks : list string) (E : TaskExecution)
    (d0 d : Doc) :
  ks ⊆ nullable_fields -> _doc_to_execution d0 = Ok E ->
  stored_without ks d0 d ->
  _doc_to_execution d = Ok (nulled ks E).
Proof.
  intros Hsub Hread Hd. revert Hread.
  unfold _doc_to_execution, TaskExecution_init, getitem, dict_get.
  cbn [x_id x_task_id x_start_time x_end_time x_status x_output x_error
       x_user].
  stored_keys d Hd Hsub.
  unfold nulled.
  absent_or_stored Hd "end_time"; absent_or_stored Hd "output";
    absent_or_stored Hd "error"; absent_or_stored Hd "user";
    rewrite ?opt_str_field_default, ?opt_date_field_default;
    intros Hread; repeat step Hread; injection Hread as <-; reflexivity.
Qed.

Lemma comprehension_app {A B} (f : A -> result B) (l1 l2 : list A)
    (x : A) (ys1 ys2 : list B) (y : B) :
  comprehension f l1 = Ok ys1 -> f x = Ok y ->
  comprehension f l2 = Ok ys2 ->
  comprehension f (l1 ++ x :: l2) = Ok (ys1 ++ y :: ys2).
Proof.
  rewrite !comprehension_Ok. intros H1 Hx H2.
  apply Forall2_app; [done|]. by constructor.
Qed.

Lemma filter_any_doc (c : list Doc) : List.filter any_doc c = c.
Proof. induction c as [|d c IH]; simpl; [done|]. by rewrite IH. Qed.

(** A document that reads as a task of the user [u] holds [u]. *)
Lemma doc_to_task_user (d : Doc) (T : Task) (u : string) :
  _doc_to_task d = Ok T -> user T = Some u -> d !! "user" = Some (VStr u).
Proof.
  unfold _doc_to_task, Task_init, dict_get.
  cbn [a_id a_name a_schedule a_type a_command a_api_url a_api_method
       a_api_headers a_api_body a_prompt a_description a_enabled
       a_do_only_once a_last_run a_next_run a_status a_created_at
       a_updated_at a_reminder_title a_reminder_message a_user
       a_conversation_id].
  intros Hread. repeat step Hread. injection Hread as <-. simpl.
  intros ->.
  match goal with
  | E : opt_str_field "user" _ = Ok _ |- _ => revert E
  end.
  unfold opt_str_field.
  destruct (d !! "user") as [[]|]; simpl; congruence.
Qed.

Lemma stored_without_user (ks : list string) (T : Task) (d0 d : Doc)
    (u : string) :
  ks ⊆ defaulted_fields -> _doc_to_task d0 = Ok T ->
  stored_without ks d0 d ->
  user T = Some u -> field_is "user" u d = true.
Proof.
  intros Hsub Hread Hd Hu. unfold field_is. apply bool_decide_eq_true.
  stored_keys d Hd Hsub. by apply (doc_to_task_user d0 T).
Qed.

(** C10: a task document that lacks [enabled], [do_only_once] or [status]
    (any of them) is read as the document that has them is, with [true],
    [true] and [PENDING] in their place: by [_doc_to_task], and so by
    [get_task], by [get_all_tasks] and by [get_tasks_by_user], which
    return it among the other tasks; an execution document that lacks
    [end_time], [output], [error] or [user] is read with [None] in their
    place.  [d0] and [d0'] are documents that are read; [d] and [d'] are
    the same documents without some of these fields. *)
Theorem absent_fields_read_as_defaults
    (ks ks' : list string) (T : Task) (E : TaskExecution)
    (d0 d d0' d' : Doc)
    (db : MongoDatabase) (pre post : list Doc) (ts1 ts2 : list Task) :
  ks ⊆ defaulted_fields -> _doc_to_task d0 = Ok T ->
  stored_without ks d0 d ->
  ks' ⊆ nullable_fields -> _doc_to_execution d0' = Ok E ->
  stored_without ks' d0' d' ->
  _doc_to_task d = Ok (defaulted ks T)
  /\ _doc_to_execution d' = Ok (nulled ks' E)
  /\ (server_fault db = None ->
      tasks_collection db = pre ++ d :: post ->
      (List.find (field_is "id" (id T)) (tasks_collection db) = Some d ->
       get_task (id T) db = (Ok (Some (defaulted ks T)), db))
      /\ (comprehension _doc_to_task pre = Ok ts1 ->
          comprehension _doc_to_task post = Ok ts2 ->
          get_all_tasks db = (Ok (ts1 ++ defaulted ks T :: ts2), db))
      /\ (forall u,
            user T = Some u ->
            comprehension _doc_to_task
              (List.filter (field_is "user" u) pre) = Ok ts1 ->
            comprehension _doc_to_task
              (List.filter (field_is "user" u) post) = Ok ts2 ->
            get_tasks_by_user u db
            = (Ok (ts1 ++ defaulted ks T :: ts2), db))).
Proof.
  intros Hsub Hread Hd Hsub' Hread' Hd'.
  pose proof (doc_to_task_absent ks T d0 d Hsub Hread Hd) as Ht.
  split; [done|]. split; [by apply (doc_to_execution_absent ks' E d0')|].
  intros F Hc. split; [|split].
  - intros Hfind. unfold get_task, try_except, bind, find_one.
    rewrite (driver_healthy _ _ F). simpl. rewrite Hfind.
    destruct (find_split _ _ _ Hfind) as (_ & _ & _ & _ & Hid).
    apply field_is_nonempty in Hid. rewrite decide_False by done.
    unfold lift. by rewrite Ht.
  - intros H1 H2. unfold get_all_tasks, try_except, bind, find.
    rewrite (driver_healthy _ _ F). simpl. unfold lift.
    rewrite filter_any_doc, Hc.
    by rewrite (comprehension_app _ _ _ _ _ _ _ H1 Ht H2).
  - intros u Hu H1 H2. unfold get_tasks_by_user, try_except, bind, find.
    rewrite (driver_healthy _ _ F). simpl. unfold lift.
    rewrite Hc, List.filter_app. simpl.
    rewrite (stored_without_user ks T d0 d u Hsub Hread Hd Hu).
    by rewrite (comprehension_app _ _ _ _ _ _ _ H1 Ht H2).
Qed.

Lemma legacy_task_doc_stored :
  stored_without defaulted_fields (task_doc sample_task) legacy_task_doc.
Proof.
  split.
  - intros k Hk. apply list_elem_of_In in Hk. simpl in Hk.
    destruct Hk as [<-|[<-|[<-|[]]]]; vm_compute; reflexivity.
  - intros k Hk _. unfold legacy_task_doc.
    rewrite !lookup_delete_ne; [done|..];
      intros <-; apply Hk, list_elem_of_In; simpl; auto.
Defined.

Lemma legacy_execution_doc_stored :
  stored_without nullable_fields (execution_doc sample_execution)
    legacy_execution_doc.
Proof.
  split.
  - intros k Hk. apply list_elem_of_In in Hk. simpl in Hk.
    destruct Hk as [<-|[<-|[<-|[<-|[]]]]]; vm_compute; reflexivity.
  - intros k Hk _. unfold legacy_execution_doc.
    rewrite !lookup_delete_ne; [done|..];
      intros <-; apply Hk, list_elem_of_In; simpl; auto.
Defined.

(** Witness of C10: the sample records as an older writer stored them. *)
Lemma absent_fields_read_as_defaults_witness :
  defaulted_fields ⊆ defaulted_fields
  /\ _doc_to_task (task_doc sample_task) = Ok sample_task
  /\ stored_without defaulted_fields (task_doc sample_task) legacy_task_doc
  /\ nullable_fields ⊆ nullable_fields
  /\ _doc_to_execution (execution_doc sample_execution)
     = Ok sample_execution
  /\ stored_without nullable_fields (execution_doc sample_execution)
       legacy_execution_doc
  /\ _doc_to_task legacy_task_doc
     = Ok (defaulted defaulted_fields sample_task)
  /\ _doc_to_execution legacy_execution_doc
     = Ok (nulled nullable_fields sample_execution).
Proof.
  assert (defaulted_fields ⊆ defaulted_fields) as H1
    by (intros k Hk; exact Hk).
  assert (nullable_fields ⊆ nullable_fields) as H3
    by (intros k Hk; exact Hk).
  assert (_doc_to_task (task_doc sample_task) = Ok sample_task) as R1
    by reflexivity.
  assert (_doc_to_execution (execution_doc sample_execution)
          = Ok sample_execution) as R2
    by reflexivity.
  pose proof legacy_task_doc_stored as H2.
  pose proof legacy_execution_doc_stored as H4.
  destruct (absent_fields_read_as_defaults defaulted_fields nullable_fields
              sample_task sample_execution (task_doc sample_task)
              legacy_task_doc (execution_doc sample_execution)
              legacy_execution_doc legacy_db [] [] [] []
              H1 R1 H2 H3 R2 H4)
    as (Ht & He & _).
  split; [exact H1|]. split; [exact R1|]. split; [exact H2|].
  split; [exact H3|]. split; [exact R2|]. split; [exact H4|].
  split; [exact Ht | exact He].
Defined.

(** The sample task has [do_only_once] false and is read from the legacy
    document with all three defaults; the three readers return it. *)
Example legacy_task_read :
  fst (get_task "t1" legacy_db)
  = Ok (Some (defaulted defaulted_fields sample_task))
  /\ fst (get_all_tasks legacy_db)
     = Ok [defaulted defaulted_fields sample_task]
  /\ fst (get_tasks_by_user "u1" legacy_db)
     = Ok [defaulted defaulted_fields sample_task]
  /\ enabled (defaulted defaulted_fields sample_task) = true
  /\ do_only_once (defaulted defaulted_fields sample_task) = true
  /\ status (defaulted defaulted_fields sample_task) = PENDING.
Proof. vm_compute. done. Qed.

End MongoFacts.

(** * More properties of the persistence layer *)

Module MongoMore.
Import Mongo MongoFacts.

(** *** Collections *)

Lemma find_head_filter (flt : Doc -> bool) (c : list Doc) :
  List.find flt c = head (List.filter flt c).
Proof.
  induction c as [|d c IH]; simpl; [done|]. by destruct (flt d).
Qed.

(** The two ways of an upsert: a first match is replaced where it is, or
    nothing matches and the document goes to the end. *)
Lemma upsert_cases (flt : Doc -> bool) (new : Doc) (c : list Doc)
    (oid : Z) :
  (exists pre d post,
     c = pre ++ d :: post
     /\ Forall (fun x => flt x = false) pre /\ flt d = true
     /\ replace_one_upsert flt new c oid
        = (pre ++ replacement d new :: post, oid))
  \/ (Forall (fun x => flt x = false) c
      /\ replace_one_upsert flt new c oid
         = (c ++ [<["_id" := VOid oid]> new], oid + 1)).
Proof.
  unfold replace_one_upsert.
  destruct (List.find flt c) as [d|] eqn:Hfind.
  - left. destruct (find_split _ _ _ Hfind) as (pre & post & -> & Hpre & Hd).
    exists pre, d, post. by rewrite (replace_first_at _ _ _ _ _ Hpre Hd).
  - right. apply find_none in Hfind.
    by rewrite (replace_first_none _ _ _ Hfind).
Qed.

Lemma filter_none (g : Doc -> bool) (c : list Doc) :
  Forall (fun x => g x = false) c -> List.filter g c = [].
Proof. induction 1 as [|x c Hx _ IH]; simpl; [done|]. by rewrite Hx. Qed.

Lemma field_is_other (k i j : string) (d : Doc) :
  field_is k i d = true -> j <> i -> field_is k j d = false.
Proof.
  intros Hi%field_is_true Hj. unfold field_is.
  apply bool_decide_eq_false. rewrite Hi. by intros [= ->].
Qed.

Lemma field_is_id_stored (new d : Doc) (i j : string) :
  stored_as new d -> new !! "id" = Some (VStr i) ->
  field_is "id" j d = bool_decide (i = j).
Proof.
  intros Hd Hi. unfold field_is. rewrite Hd, Hi by done.
  apply bool_decide_ext. split; [by intros [= ->] | by intros ->].
Qed.

(** What an upsert under the id [i] of [new] does to the documents stored
    under an id [j]: nothing for another id; for [i] itself it leaves as
    many as there were, and one when there was none. *)
Lemma upsert_filter_other (new : Doc) (i j : string) (c : list Doc)
    (oid : Z) :
  new !! "id" = Some (VStr i) -> j <> i ->
  List.filter (field_is "id" j)
    (fst (replace_one_upsert (field_is "id" i) new c oid))
  = List.filter (field_is "id" j) c.
Proof.
  intros Hi Hj.
  assert (forall d, stored_as new d -> field_is "id" j d = false) as Hnew.
  { intros d Hd. rewrite (field_is_id_stored new d i j Hd Hi).
    apply bool_decide_eq_false. by intros ->. }
  destruct (upsert_cases (field_is "id" i) new c oid)
    as [(pre & d & post & -> & _ & Hd & ->)|(_ & ->)]; simpl.
  - rewrite !List.filter_app. simpl.
    rewrite (field_is_other _ _ _ _ Hd Hj).
    by rewrite (Hnew _ (replacement_stored_as d new)).
  - rewrite List.filter_app. simpl.
    rewrite (Hnew _ (insert_id_stored_as new _)). by rewrite app_nil_r.
Qed.

Lemma upsert_filter_same (new : Doc) (i : string) (c : list Doc) (oid : Z) :
  new !! "id" = Some (VStr i) ->
  length (List.filter (field_is "id" i)
            (fst (replace_one_upsert (field_is "id" i) new c oid)))
  = Nat.max 1 (length (List.filter (field_is "id" i) c)).
Proof.
  intros Hi.
  assert (forall d, stored_as new d -> field_is "id" i d = true) as Hnew.
  { intros d Hd. rewrite (field_is_id_stored new d i i Hd Hi).
    by apply bool_decide_eq_true. }
  destruct (upsert_cases (field_is "id" i) new c oid)
    as [(pre & d & post & -> & _ & Hd & ->)|(Hno & ->)]; simpl.
  - rewrite !List.filter_app. simpl.
    rewrite Hd, (Hnew _ (replacement_stored_as d new)).
    rewrite !length_app. simpl. lia.
  - rewrite List.filter_app. simpl.
    rewrite (Hnew _ (insert_id_stored_as new _)), (filter_none _ _ Hno).
    done.
Qed.

Lemma task_doc_id (T : Task) : task_doc T !! "id" = Some (VStr (id T)).
Proof. reflexivity. Qed.



(** What [get_task] returns on a connection that works. *)
Lemma get_task_healthy (i : string) (db : MongoDatabase) :
  server_fault db = None ->
  fst (get_task i db)
  = Ok (task_of_found (List.find (field_is "id" i) (tasks_collection db))).
Proof.
  intros F. unfold get_task, try_except, bind, find_one.
  rewrite (driver_healthy _ _ F). simpl.
  destruct (List.find _ _) as [d|]; simpl; [|done].
  destruct (decide (d = ∅)); [done|].
  unfold lift. by destruct (_doc_to_task d).
Qed.

(** *** Saving leaves the rest alone *)

(** X1: a successful [save_task T] touches nothing but the document under
    the id of [T]: the documents under any other id, and what [get_task]
    returns for it, are as before, and so are the executions and the
    log. *)
Theorem save_task_frame (T : Task) (db db' : MongoDatabase) (j : string) :
  save_task T db = (Ok tt, db') ->
  j <> id T ->
  List.filter (field_is "id" j) (tasks_collection db')
  = List.filter (field_is "id" j) (tasks_collection db)
  /\ fst (get_task j db') = fst (get_task j db)
  /\ executions_collection db' = executions_collection db
  /\ log db' = log db.
Proof.
  intros (F & ->)%save_task_ok Hj.
  assert (List.filter (field_is "id" j)
            (tasks_collection
               (with_docs Tasks
                  (fst (replace_one_upsert (field_is "id" (id T))
                          (task_doc T) (tasks_collection db) (next_oid db)))
                  (snd (replace_one_upsert (field_is "id" (id T))
                          (task_doc T) (tasks_collection db) (next_oid db)))
                  db))
          = List.filter (field_is "id" j) (tasks_collection db)) as Hflt.
  { simpl. by apply upsert_filter_other; [apply task_doc_id|]. }
  split; [done|]. split; [|done].
  rewrite !get_task_healthy by done.
  by rewrite !find_head_filter, Hflt.
Qed.

Lemma save_task_frame_witness :
  save_task other_task (snd (save_task sample_task empty_db))
  = (Ok tt, two_tasks_db)
  /\ "t1" <> id other_task
  /\ fst (get_task "t1" two_tasks_db)
     = fst (get_task "t1" (snd (save_task sample_task empty_db))).
Proof.
  assert (save_task other_task (snd (save_task sample_task empty_db))
          = (Ok tt, two_tasks_db)) as H by reflexivity.
  assert ("t1" <> id other_task) as Hj by discriminate.
  split; [exact H|]. split; [exact Hj|].
  exact (proj1 (proj2 (save_task_frame other_task _ _ "t1" H Hj))).
Defined.

(** *** Saving twice *)

Lemma replacement_again (old new : Doc) :
  new !! "_id" = None ->
  replacement (replacement old new) new = replacement old new.
Proof.
  intros Hn. unfold replacement at 1.
  rewrite (replacement_keeps_id old new Hn).
  unfold replacement. by destruct (old !! "_id").
Qed.

Lemma upsert_again (flt : Doc -> bool) (new : Doc) (c : list Doc)
    (oid : Z) :
  new !! "_id" = None ->
  (forall d, stored_as new d -> flt d = true) ->
  replace_one_upsert flt new
    (fst (replace_one_upsert flt new c oid))
    (snd (replace_one_upsert flt new c oid))
  = replace_one_upsert flt new c oid.
Proof.
  intros Hn Hflt.
  destruct (upsert_cases flt new c oid)
    as [(pre & d & post & -> & Hpre & Hd & ->)|(Hno & ->)]; simpl.
  - unfold replace_one_upsert.
    rewrite (replace_first_at _ _ _ _ _ Hpre
               (Hflt _ (replacement_stored_as d new))).
    by rewrite replacement_again.
  - unfold replace_one_upsert.
    rewrite (replace_first_at _ _ c [] _ Hno
               (Hflt _ (insert_id_stored_as new _))).
    unfold replacement. by rewrite lookup_insert_eq.
Qed.

(** X2: [save_task] is idempotent: saving the task that was just saved
    succeeds and leaves the database as it is, the [_id] of the stored
    document included. *)
Theorem save_task_twice (T : Task) (db db' : MongoDatabase) :
  save_task T db = (Ok tt, db') -> save_task T db' = (Ok tt, db').
Proof.
  intros (F & ->)%save_task_ok.
  unfold save_task, try_except, replace_one.
  rewrite driver_healthy by (by destruct db). simpl.
  rewrite upsert_again.
  - by destruct (replace_one_upsert _ _ _ _).
  - apply task_doc_no_id.
  - intros d Hd. rewrite (field_is_stored_as (task_doc T)) by done.
    apply field_is_id_task_doc.
Qed.

Lemma save_task_twice_witness :
  save_task sample_task empty_db
  = (Ok tt, snd (save_task sample_task empty_db))
  /\ save_task sample_task (snd (save_task sample_task empty_db))
     = (Ok tt, snd (save_task sample_task empty_db)).
Proof.
  assert (save_task sample_task empty_db
          = (Ok tt, snd (save_task sample_task empty_db))) as H
    by reflexivity.
  split; [exact H|]. exact (save_task_twice sample_task empty_db _ H).
Defined.

(** *** Deleting *)

Lemma delete_first_cases (flt : Doc -> bool) (c : list Doc) :
  (exists pre d post,
     c = pre ++ d :: post
     /\ Forall (fun x => flt x = false) pre /\ flt d = true
     /\ delete_first flt c = (pre ++ post, 1))
  \/ (Forall (fun x => flt x = false) c /\ delete_first flt c = (c, 0)).
Proof.
  induction c as [|x c IH]; simpl.
  - right. by split.
  - destruct (flt x) eqn:Hx.
    + left. by exists [], x, c.
    + destruct IH as [(pre & d & post & -> & Hpre & Hd & ->)|(Hno & ->)].
      * left. exists (x :: pre), d, post.
        split; [done|]. split; [by constructor|]. done.
      * right. split; [by constructor | done].
Qed.

Lemma delete_task_healthy (i : string) (db : MongoDatabase) :
  server_fault db = None ->
  delete_task i db
  = (Ok (0 <? snd (delete_first (field_is "id" i) (tasks_collection db))),
     with_docs Tasks
       (fst (delete_first (field_is "id" i) (tasks_collection db)))
       (next_oid db) db).
Proof.
  intros F. unfold delete_task, try_except, bind, delete_one.
  rewrite (driver_healthy _ _ F). simpl.
  by destruct (delete_first _ _).
Qed.


Lemma with_docs_same (db : MongoDatabase) :
  with_docs Tasks (tasks_collection db) (next_oid db) db = db.
Proof. by destruct db. Qed.

(** X3: on a connection that works, [delete_task] returns [True] exactly
    when a document with the id is stored; it then removes the first such
    document and no other; otherwise it leaves the database as it is.
    Executions and log are never touched: the executions of a deleted
    task stay. *)
Theorem delete_task_removes_first (i : string) (db : MongoDatabase) :
  server_fault db = None ->
  exists (b : bool) (db' : MongoDatabase),
    delete_task i db = (Ok b, db')
    /\ executions_collection db' = executions_collection db
    /\ log db' = log db
    /\ ((b = true
         /\ exists pre d post,
              tasks_collection db = pre ++ d :: post
              /\ List.find (field_is "id" i) (tasks_collection db) = Some d
              /\ tasks_collection db' = pre ++ post)
        \/ (b = false
            /\ List.find (field_is "id" i) (tasks_collection db) = None
            /\ db' = db)).
Proof.
  intros F. rewrite (delete_task_healthy _ _ F).
  destruct (delete_first_cases (field_is "id" i) (tasks_collection db))
    as [(pre & d & post & Hc & Hpre & Hd & Hdel)|(Hno & Hdel)];
    rewrite Hdel; cbn [fst snd].
  - exists true, (with_docs Tasks (pre ++ post) (next_oid db) db).
    split; [done|]. split; [done|]. split; [done|]. left.
    split; [done|]. exists pre, d, post. split; [done|]. split; [|done].
    rewrite Hc. by apply find_first.
  - exists false, db. rewrite with_docs_same.
    split; [done|]. split; [done|]. split; [done|]. right.
    split; [done|]. split; [|done].
    rewrite find_head_filter. by rewrite (filter_none _ _ Hno).
Qed.

Lemma delete_task_removes_first_witness :
  server_fault two_tasks_db = None
  /\ exists (b : bool) (db' : MongoDatabase),
       delete_task "t1" two_tasks_db = (Ok b, db')
       /\ executions_collection db' = executions_collection two_tasks_db
       /\ log db' = log two_tasks_db
       /\ ((b = true
            /\ exists pre d post,
                 tasks_collection two_tasks_db = pre ++ d :: post
                 /\ List.find (field_is "id" "t1")
                      (tasks_collection two_tasks_db) = Some d
                 /\ tasks_collection db' = pre ++ post)
           \/ (b = false
               /\ List.find (field_is "id" "t1")
                    (tasks_collection two_tasks_db) = None
               /\ db' = two_tasks_db)).
Proof.
  assert (server_fault two_tasks_db = None) as F by reflexivity.
  split; [exact F|]. exact (delete_task_removes_first "t1" two_tasks_db F).
Defined.

(** *** One document for an id *)



Lemma save_task_ids_unique (T : Task) (db db' : MongoDatabase) :
  ids_unique (tasks_collection db) ->
  save_task T db = (Ok tt, db') ->
  ids_unique (tasks_collection db')
  /\ executions_collection db' = executions_collection db.
Proof.
  intros Ht (_ & ->)%save_task_ok. split; [|done]. intros j. simpl.
  destruct (decide (j = id T)) as [->|Hj].
  - rewrite upsert_filter_same by apply task_doc_id.
    specialize (Ht (id T)). lia.
  - rewrite upsert_filter_other by (done || apply task_doc_id).
    apply Ht.
Qed.




Lemma ids_unique_nil : ids_unique [].
Proof. intros i. simpl. lia. Defined.


(** X5: with unique ids, a deleted task is gone: after [delete_task i] on
    a connection that works, [get_task i] returns [None] and a second
    [delete_task i] returns [False]. *)
Theorem deleted_task_is_gone (i : string) (db : MongoDatabase) :
  server_fault db = None ->
  ids_unique (tasks_collection db) ->
  fst (get_task i (snd (delete_task i db))) = Ok None
  /\ fst (delete_task i (snd (delete_task i db))) = Ok false.
Proof.
  intros F Hu.
  assert (List.filter (field_is "id" i)
            (fst (delete_first (field_is "id" i) (tasks_collection db)))
          = []) as Hgone.
  { destruct (delete_first_cases (field_is "id" i) (tasks_collection db))
      as [(pre & d & post & Hc & Hpre & Hd & ->)|(Hno & ->)]; simpl.
    - specialize (Hu i). rewrite Hc in Hu.
      rewrite !List.filter_app in *. simpl in Hu. rewrite Hd in Hu.
      rewrite (filter_none _ _ Hpre) in *. simpl in *.
      destruct (List.filter _ post); [done | simpl in Hu; lia].
    - by apply filter_none. }
  rewrite (delete_task_healthy _ _ F). simpl.
  split.
  - rewrite get_task_healthy by done. simpl.
    by rewrite find_head_filter, Hgone.
  - rewrite delete_task_healthy by done. simpl.
    destruct (delete_first_cases (field_is "id" i)
                (fst (delete_first (field_is "id" i) (tasks_collection db))))
      as [(pre & d & post & Hc & Hpre & Hd & ->)|(Hno & ->)]; [|done].
    rewrite Hc, List.filter_app in Hgone. simpl in Hgone.
    rewrite Hd in Hgone. by destruct (List.filter _ pre).
Qed.

Lemma two_tasks_unique : ids_unique (tasks_collection two_tasks_db).
Proof.
  pose proof (save_task_ids_unique sample_task empty_db _
                ids_unique_nil eq_refl) as [H1 _].
  exact (proj1 (save_task_ids_unique other_task _ two_tasks_db H1 eq_refl)).
Defined.

Lemma deleted_task_is_gone_witness :
  server_fault two_tasks_db = None
  /\ ids_unique (tasks_collection two_tasks_db)
  /\ fst (get_task "t1" (snd (delete_task "t1" two_tasks_db))) = Ok None
  /\ fst (delete_task "t1" (snd (delete_task "t1" two_tasks_db)))
     = Ok false.
Proof.
  assert (server_fault two_tasks_db = None) as F by reflexivity.
  split; [exact F|]. split; [exact two_tasks_unique|].
  exact (deleted_task_is_gone "t1" two_tasks_db F two_tasks_unique).
Defined.

(** *** Reads *)

Ltac open_read :=
  unfold get_task, get_all_tasks, get_tasks_by_user, get_executions,
    get_executions_by_user, delete_task, try_except, bind, find_one, find,
    find_sort_limit, delete_one, driver, lift, logger, ret, same_data.

(** X6: no read raises, whatever the state of the connection and whatever
    the collections hold, and no read changes anything but the log;
    [delete_task] does not raise either. *)
Theorem reads_never_raise (i u : string) (n : option Z)
    (db : MongoDatabase) :
  (exists r db', get_task i db = (Ok r, db') /\ same_data db db')
  /\ (exists r db', get_all_tasks db = (Ok r, db') /\ same_data db db')
  /\ (exists r db', get_tasks_by_user u db = (Ok r, db') /\ same_data db db')
  /\ (exists r db', get_executions i n db = (Ok r, db') /\ same_data db db')
  /\ (exists r db',
        get_executions_by_user u n db = (Ok r, db') /\ same_data db db')
  /\ (exists b db', delete_task i db = (Ok b, db')).
Proof.
  repeat split; open_read;
    destruct (server_fault db) eqn:F; simpl; eauto 10.
  - destruct (List.find _ _) as [d|]; simpl; eauto 10.
    destruct (decide (d = ∅)); simpl; eauto 10.
    destruct (_doc_to_task d); simpl; eauto 10.
  - destruct (comprehension _ _); simpl; eauto 10.
  - destruct (comprehension _ _); simpl; eauto 10.
  - destruct (comprehension _ _); simpl; eauto 10.
  - destruct (comprehension _ _); simpl; eauto 10.
  - destruct (delete_first _ _); simpl; eauto.
Qed.

(** *** The tasks of a user *)

Ltac task_args :=
  cbn [a_id a_name a_schedule a_type a_command a_api_url a_api_method
       a_api_headers a_api_body a_prompt a_description a_enabled
       a_do_only_once a_last_run a_next_run a_status a_created_at
       a_updated_at a_reminder_title a_reminder_message a_user
       a_conversation_id].

(** A document that holds the user [u] reads as a task of [u]. *)
Lemma doc_to_task_user_of (d : Doc) (T : Task) (u : string) :
  _doc_to_task d = Ok T -> d !! "user" = Some (VStr u) -> user T = Some u.
Proof.
  unfold _doc_to_task, Task_init, dict_get. task_args.
  intros Hread Hu. rewrite Hu in Hread.
  repeat step Hread. injection Hread as <-. simpl.
  match goal with
  | E : opt_str_field "user" _ = Ok _ |- _ => by injection E
  end.
Qed.

Lemma field_is_user_read (d : Doc) (T : Task) (u : string) :
  _doc_to_task d = Ok T ->
  field_is "user" u d = bool_decide (user T = Some u).
Proof.
  intros Hread. unfold field_is. apply bool_decide_ext. split.
  - by apply doc_to_task_user_of.
  - by apply doc_to_task_user.
Qed.

Lemma Forall2_filter {A B} (P : A -> B -> Prop) (f : A -> bool)
    (g : B -> bool) (l : list A) (ys : list B) :
  (forall x y, P x y -> f x = g y) ->
  Forall2 P l ys -> Forall2 P (List.filter f l) (List.filter g ys).
Proof.
  intros Hfg. induction 1 as [|x y l ys Hxy _ IH]; simpl; [constructor|].
  rewrite (Hfg x y Hxy). destruct (g y); [by constructor | done].
Qed.

(** X7: [get_tasks_by_user] never returns a task of another user: every
    task it returns has the user asked for, in every state of the
    database. *)
Theorem tasks_by_user_only (u : string) (db : MongoDatabase) :
  exists ts db',
    get_tasks_by_user u db = (Ok ts, db')
    /\ Forall (fun t => user t = Some u) ts.
Proof.
  unfold get_tasks_by_user, try_except, bind, find.
  destruct (server_fault db) as [e|] eqn:F.
  { rewrite (driver_faulty _ _ _ F). simpl. eauto. }
  rewrite (driver_healthy _ _ F). simpl. unfold lift.
  destruct (comprehension _ _) as [ts|e] eqn:Hc; simpl; [|eauto].
  exists ts, db. split; [done|].
  apply comprehension_Ok in Hc.
  eapply Forall2_right; [|eapply Forall2_In_l; [|exact Hc]].
  - intros d t H. exact H.
  - intros d t Hin Hread. simpl.
    apply filter_In in Hin as [_ Hu%field_is_true].
    by apply (doc_to_task_user_of d).
Qed.

(** X8: when every stored task can be read, [get_all_tasks] returns them
    all, in the order of the collection, and [get_tasks_by_user] returns
    those of them that have the user, in the same order; neither logs. *)
Theorem tasks_by_user_is_filter (u : string) (db : MongoDatabase)
    (ts : list Task) :
  server_fault db = None ->
  comprehension _doc_to_task (tasks_collection db) = Ok ts ->
  get_all_tasks db = (Ok ts, db)
  /\ get_tasks_by_user u db
     = (Ok (List.filter (fun t => bool_decide (user t = Some u)) ts), db).
Proof.
  intros F Hc. split.
  - unfold get_all_tasks, try_except, bind, find.
    rewrite (driver_healthy _ _ F). simpl. unfold lift.
    by rewrite filter_any_doc, Hc.
  - unfold get_tasks_by_user, try_except, bind, find.
    rewrite (driver_healthy _ _ F). simpl. unfold lift.
    apply comprehension_Ok in Hc.
    assert (comprehension _doc_to_task
              (List.filter (field_is "user" u) (tasks_collection db))
            = Ok (List.filter (fun t => bool_decide (user t = Some u)) ts))
      as ->; [|done].
    apply comprehension_Ok.
    apply Forall2_filter; [|done].
    intros d t. apply field_is_user_read.
Qed.

Lemma tasks_by_user_is_filter_witness :
  server_fault two_tasks_db = None
  /\ comprehension _doc_to_task (tasks_collection two_tasks_db)
     = Ok [sample_task; other_task]
  /\ get_tasks_by_user "u2" two_tasks_db
     = (Ok (List.filter (fun t => bool_decide (user t = Some "u2"))
              [sample_task; other_task]),
        two_tasks_db).
Proof.
  assert (server_fault two_tasks_db = None) as F by reflexivity.
  assert (comprehension _doc_to_task (tasks_collection two_tasks_db)
          = Ok [sample_task; other_task]) as Hc by reflexivity.
  split; [exact F|]. split; [exact Hc|].
  exact (proj2 (tasks_by_user_is_filter "u2" two_tasks_db _ F Hc)).
Defined.

(** *** A store that only [save_task] wrote *)








(** *** The most recent executions *)








(** *** A saved execution is listed *)





(** *** The name of the database *)

Lemma lstrip_slash_no_leading (s : string) :
  leading_slash (lstrip_slash s) = false.
Proof.
  induction s as [|c s IH]; simpl; [done|].
  destruct (Ascii.eqb c "/"%char) eqn:Hc; [done|]. simpl. exact Hc.
Qed.

Lemma before_char_without (c : ascii) (s : string) :
  contains_char c (before_char c s) = false.
Proof.
  induction s as [|a s IH]; simpl; [done|].
  destruct (Ascii.eqb a c) eqn:Ha; simpl; [done|]. by rewrite Ha.
Qed.

Lemma before_char_no_leading (c : ascii) (s : string) :
  leading_slash s = false -> leading_slash (before_char c s) = false.
Proof.
  destruct s as [|a s]; simpl; [done|].
  by destruct (Ascii.eqb a c).
Qed.

Lemma before_char_all (c : ascii) (s : string) :
  contains_char c s = false -> before_char c s = s.
Proof.
  induction s as [|a s IH]; simpl; [done|].
  destruct (Ascii.eqb a c); simpl; [done|]. intros H. by rewrite IH.
Qed.

Lemma before_char_query (c : ascii) (s q : string) :
  contains_char c s = false ->
  contains_char c (s +:+ String c q) = true
  /\ before_char c (s +:+ String c q) = s.
Proof.
  induction s as [|a s IH]; simpl.
  - intros _. by rewrite Ascii.eqb_refl.
  - destruct (Ascii.eqb a c); simpl; [done|]. intros H.
    destruct (IH H) as [H1 H2]. split; [done|]. by f_equal.
Qed.

Lemma append_empty (s : string) : s +:+ "" = s.
Proof.
  induction s as [|a s IH]; [done|].
  change (String a (s +:+ "") = String a s). by rewrite IH.
Qed.

Lemma lstrip_slash_id (s : string) :
  leading_slash s = false -> lstrip_slash s = s.
Proof. destruct s as [|a s]; simpl; [done|]. by intros ->. Qed.

(** The name cut out of a path, before the test for the empty name. *)
Lemma extract_by_cases (urlparse_path : string -> result string)
    (uri : string) (records : list log_record) :
  match urlparse_path uri with
  | Raise e =>
      exists msg,
        _extract_database_name_from_uri urlparse_path uri records
        = (Ok "scheduler", records ++ [(WARNING, msg)])
  | Ok path =>
      let cut := lstrip_slash path in
      let name :=
        if contains_char "?"%char cut then before_char "?"%char cut
        else cut in
      if String.eqb name "" then
        exists msg,
          _extract_database_name_from_uri urlparse_path uri records
          = (Ok "scheduler", records ++ [(WARNING, msg)])
      else
        exists msg,
          _extract_database_name_from_uri urlparse_path uri records
          = (Ok name, records ++ [(INFO, msg)])
  end.
Proof.
  unfold _extract_database_name_from_uri, try_except, bind, lift.
  destruct (urlparse_path uri) as [path|e]; simpl; [|eauto].
  destruct (String.eqb _ "") eqn:Hn; simpl; eauto.
Qed.

(** X12: the name taken from a URI is always usable: whatever the parser
    of URLs returns or raises, [_extract_database_name_from_uri] returns
    a name that is not empty, holds no question mark and does not start
    with a slash, and logs one record. *)
Theorem database_name_is_usable
    (urlparse_path : string -> result string) (uri : string)
    (records : list log_record) :
  exists (name : string) (r : log_record),
    _extract_database_name_from_uri urlparse_path uri records
    = (Ok name, records ++ [r])
    /\ name <> ""
    /\ contains_char "?"%char name = false
    /\ leading_slash name = false.
Proof.
  pose proof (extract_by_cases urlparse_path uri records) as H.
  destruct (urlparse_path uri) as [path|e].
  - cbv zeta in H.
    destruct (String.eqb _ "") eqn:Hn.
    + destruct H as (msg & ->). by eexists _, _.
    + destruct H as (msg & ->). eexists _, _. split; [done|].
      split; [by apply String.eqb_neq|].
      pose proof (lstrip_slash_no_leading path) as Hl.
      destruct (contains_char "?"%char (lstrip_slash path)) eqn:Hq.
      * split; [apply before_char_without|].
        by apply before_char_no_leading.
      * done.
  - destruct H as (msg & ->). by eexists _, _.
Qed.

(** X13: which name it is.  A path that is a slash and a name (not
    empty, without a question mark, not starting with a slash),
    followed or not by a question mark and a query, gives the name; a
    path that holds nothing but slashes, and a parser that raises, give
    [scheduler]; a name passed to the constructor is taken as it is,
    without a look at the URI. *)
Theorem database_name_of_path
    (urlparse_path : string -> result string) (uri name rest : string)
    (records : list log_record) :
  name <> "" -> contains_char "?"%char name = false ->
  leading_slash name = false ->
  rest = "" \/ (exists q, rest = String "?"%char q) ->
  (urlparse_path uri = Ok (String "/"%char (name +:+ rest)) ->
   fst (_extract_database_name_from_uri urlparse_path uri records)
   = Ok name)
  /\ (forall path,
        urlparse_path uri = Ok path -> lstrip_slash path = "" ->
        fst (_extract_database_name_from_uri urlparse_path uri records)
        = Ok "scheduler")
  /\ (forall e,
        urlparse_path uri = Raise e ->
        fst (_extract_database_name_from_uri urlparse_path uri records)
        = Ok "scheduler")
  /\ database_name_of urlparse_path uri (Some name) records
     = (Ok name, records).
Proof.
  intros Hne Hq Hl Hrest.
  pose proof (extract_by_cases urlparse_path uri records) as H.
  split; [|split; [|split; [|done]]].
  - intros Hp. rewrite Hp in H. cbv zeta in H.
    assert ((if contains_char "?"%char
                  (lstrip_slash (String "/"%char (name +:+ rest)))
             then before_char "?"%char
                    (lstrip_slash (String "/"%char (name +:+ rest)))
             else lstrip_slash (String "/"%char (name +:+ rest)))
            = name) as Hname.
    { change (lstrip_slash (String "/"%char (name +:+ rest)))
        with (lstrip_slash (name +:+ rest)).
      destruct Hrest as [->|(q & ->)].
      - rewrite append_empty, (lstrip_slash_id _ Hl), Hq. done.
      - rewrite lstrip_slash_id.
        + destruct (before_char_query "?"%char name q Hq) as [-> ->].
          done.
        + destruct name; [done | exact Hl]. }
    rewrite Hname in H. apply String.eqb_neq in Hne. rewrite Hne in H.
    by destruct H as (msg & ->).
  - intros path Hp Hempty. rewrite Hp in H. cbv zeta in H.
    rewrite Hempty in H. simpl in H. by destruct H as (msg & ->).
  - intros e He. rewrite He in H. by destruct H as (msg & ->).
Qed.

Lemma database_name_of_path_witness :
  "librechat" <> ""
  /\ contains_char "?"%char "librechat" = false
  /\ leading_slash "librechat" = false
  /\ ("" = "" \/ (exists q, "" = String "?"%char q))
  /\ sample_urlparse "mongodb://db:27017/librechat?tls=true"
     = Ok (String "/"%char ("librechat" +:+ ""))
  /\ fst (_extract_database_name_from_uri sample_urlparse
            "mongodb://db:27017/librechat?tls=true" [])
     = Ok "librechat".
Proof.
  assert ("librechat" <> "") as H1 by discriminate.
  assert (contains_char "?"%char "librechat" = false) as H2 by reflexivity.
  assert (leading_slash "librechat" = false) as H3 by reflexivity.
  assert ("" = "" \/ (exists q, "" = String "?"%char q)) as H4
    by (left; reflexivity).
  assert (sample_urlparse "mongodb://db:27017/librechat?tls=true"
          = Ok (String "/"%char ("librechat" +:+ ""))) as H5
    by reflexivity.
  split; [exact H1|]. split; [exact H2|]. split; [exact H3|].
  split; [exact H4|]. split; [exact H5|].
  exact (proj1 (database_name_of_path sample_urlparse
                  "mongodb://db:27017/librechat?tls=true" "librechat" ""
                  [] H1 H2 H3 H4) H5).
Defined.

End MongoMore.

(** * More properties of the result notifier *)

Module DeliveryMore.
Import Delivery DeliveryFacts.

(** *** The endpoints *)

Lemma rstrip_slash_slashes (s : string) :
  exists k, s = rstrip_slash s +:+ slashes k.
Proof.
  induction s as [|c s (k & IH)]; simpl.
  - by exists O.
  - destruct (rstrip_slash s) as [|a r] eqn:Hr.
    + change (s = slashes k) in IH.
      destruct (Ascii.eqb_spec c "/"%char) as [->|_].
      * exists (S k). by rewrite IH at 1.
      * exists k. by rewrite IH at 1.
    + exists k. change (s = String a (r +:+ slashes k)) in IH.
      by rewrite IH at 1.
Qed.

Lemma rstrip_slash_no_trailing (s : string) :
  trailing_slash (rstrip_slash s) = false.
Proof.
  induction s as [|c s IH]; simpl; [done|].
  destruct (rstrip_slash s) as [|a r] eqn:Hr.
  - destruct (Ascii.eqb_spec c "/"%char) as [->|Hc]; simpl; [done|].
    by apply Ascii.eqb_neq.
  - exact IH.
Qed.

(** X14: the base URL kept by the constructor is the URL passed without
    its trailing slashes, all of them and nothing else; the two endpoints
    are that base followed by their fixed paths, so that no URL ends up
    with a double slash before [api]. *)
Theorem endpoints_of_base (url : string) :
  let self := MessageDelivery_init (Some url) in
  (exists k, url = librechat_base_url self +:+ slashes k)
  /\ trailing_slash (librechat_base_url self) = false
  /\ task_result_endpoint self
     = librechat_base_url self +:+ "/api/scheduler/internal/task-result"
  /\ notification_endpoint self
     = librechat_base_url self +:+ "/api/scheduler/internal/notification".
Proof.
  simpl. split; [apply rstrip_slash_slashes|].
  split; [apply rstrip_slash_no_trailing | done].
Qed.

Example endpoint_without_double_slash :
  task_result_endpoint (MessageDelivery_init (Some "http://chat:3080//"))
  = "http://chat:3080/api/scheduler/internal/task-result"
  /\ notification_endpoint (MessageDelivery_init None)
     = "http://localhost:3080/api/scheduler/internal/notification".
Proof. vm_compute. done. Qed.

(** *** Notifications *)

Lemma send_task_notification_true_iff_200_witness :
  ~ missing (Some "u1") /\ ~ missing (Some "c1") /\
  exists (b : bool) (r : log_record),
    send_task_notification librechat (always (Response 200 (Ok "ok")))
      (Some "u1") (Some "c1") "backup" "t1" (Some "failed") None quiet
    = (Ok b,
       {| sent :=
            sent quiet
            ++ [notification_request librechat (Some "u1") (Some "c1")
                  "backup" "t1" (Some "failed") None];
          log := log quiet ++ [r] |})
    /\ (b = true <->
        exists text,
          always (Response 200 (Ok "ok"))
            (notification_request librechat (Some "u1") (Some "c1")
               "backup" "t1" (Some "failed") None)
          = Response 200 text).
Proof.
  assert (~ missing (Some "u1")) as Hu by (intros [?|?]; discriminate).
  assert (~ missing (Some "c1")) as Hc by (intros [?|?]; discriminate).
  split; [exact Hu|]. split; [exact Hc|].
  exact (send_task_notification_true_iff_200 librechat
           (always (Response 200 (Ok "ok"))) (Some "u1") (Some "c1")
           "backup" "t1" (Some "failed") None quiet Hu Hc).
Defined.

(** *** The log *)

Lemma guard_cases (u c : option string) :
  (negb (truthy u) || negb (truthy c) = true /\ (missing u \/ missing c))
  \/ (negb (truthy u) || negb (truthy c) = false
      /\ ~ (missing u \/ missing c)
      /\ exists su sc, u = Some su /\ c = Some sc /\ su <> "" /\ sc <> "").
Proof.
  destruct (truthy u) eqn:Tu; simpl.
  - destruct (truthy c) eqn:Tc; simpl.
    + right. split; [done|]. split.
      * intros [H|H]; apply truthy_false in H; congruence.
      * destruct u as [su|]; [|done]. destruct c as [sc|]; [|done].
        exists su, sc. simpl in Tu, Tc.
        apply negb_true_iff, String.eqb_neq in Tu, Tc. done.
    + left. split; [done|]. right. by apply truthy_false.
  - left. split; [done|]. left. by apply truthy_false.
Qed.

Ltac logged_as b l :=
  eexists b, l, _, _; (split; [reflexivity|]); (split; [reflexivity|]);
  repeat split; try done; intros; by exfalso.

Ltac notified_as b l :=
  eexists b, _; (split; [reflexivity|]); right; (split; [done|]);
  exists l; eexists; (split; [reflexivity|]); by repeat split.

(** X16: every call of [send_task_result] adds exactly one record to the
    log: a warning exactly when there is no recipient, an info exactly
    when it returns [true], an error otherwise.  [send_task_notification]
    logs nothing when there is no recipient and otherwise one record, an
    info exactly when it returns [true], an error otherwise. *)
Theorem one_log_record_per_call
    (self : MessageDelivery) (net : request -> outcome)
    (user_id conversation_id : option string)
    (task_name task_id result : string)
    (task_type notification_type details : option string)
    (success : option bool) (w : World) :
  (exists (b : bool) (l : level) (msg : string) (w' : World),
     send_task_result self net user_id conversation_id task_name task_id
       result task_type success w = (Ok b, w')
     /\ log w' = log w ++ [(l, msg)]
     /\ (l = WARNING <-> missing user_id \/ missing conversation_id)
     /\ (l = INFO <-> b = true))
  /\ (exists (b : bool) (w' : World),
        send_task_notification self net user_id conversation_id task_name
          task_id notification_type details w = (Ok b, w')
        /\ ((missing user_id \/ missing conversation_id)
            /\ b = false /\ log w' = log w
            \/ ~ (missing user_id \/ missing conversation_id)
               /\ exists (l : level) (msg : string),
                    log w' = log w ++ [(l, msg)]
                    /\ l <> WARNING
                    /\ (l = INFO <-> b = true))).
Proof.
  split.
  - unfold send_task_result.
    destruct (guard_cases user_id conversation_id)
      as [(-> & Hm)|(-> & Hm & _)].
    + eexists false, WARNING, _, _. split; [reflexivity|].
      split; [reflexivity|]. by repeat split.
    + unfold try_except, bind, post.
      destruct (net _) as [st [body|e]|e]; simpl;
        try destruct (st =? 200); simpl; try destruct e;
        first [ logged_as true INFO | logged_as false ERROR ].
  - unfold send_task_notification.
    destruct (guard_cases user_id conversation_id)
      as [(-> & Hm)|(-> & Hm & _)].
    + exists false, w. split; [done|]. by left.
    + unfold try_except, bind, post.
      destruct (net _) as [st [body|e]|e]; simpl;
        try destruct (st =? 200); simpl;
        first [ notified_as true INFO | notified_as false ERROR ].
Qed.

(** *** What is sent *)

(** X17: neither operation ever sends a request without a recipient: a
    call sends nothing or one request, and the request it sends names a
    user and a conversation, neither empty, goes to the endpoint of the
    operation and has a total timeout of 10. *)
Theorem requests_are_addressed
    (self : MessageDelivery) (net : request -> outcome)
    (user_id conversation_id : option string)
    (task_name task_id result : string)
    (task_type notification_type details : option string)
    (success : option bool) (w : World) :
  (sent (snd (send_task_result self net user_id conversation_id task_name
                task_id result task_type success w)) = sent w
   \/ exists req,
        sent (snd (send_task_result self net user_id conversation_id
                     task_name task_id result task_type success w))
        = sent w ++ [req]
        /\ addressed req
        /\ url req = task_result_endpoint self
        /\ timeout_total req = 10)
  /\ (sent (snd (send_task_notification self net user_id conversation_id
                   task_name task_id notification_type details w)) = sent w
      \/ exists req,
           sent (snd (send_task_notification self net user_id
                        conversation_id task_name task_id notification_type
                        details w))
           = sent w ++ [req]
           /\ addressed req
           /\ url req = notification_endpoint self
           /\ timeout_total req = 10).
Proof.
  split.
  - unfold send_task_result.
    destruct (guard_cases user_id conversation_id)
      as [(-> & _)|(-> & _ & su & sc & -> & -> & Hu & Hc)]; [by left|].
    right. unfold try_except, bind, post.
    exists (result_request self (Some su) (Some sc) task_name task_id
              result task_type success).
    split; [|split; [|split; reflexivity]].
    + unfold result_request.
      destruct (net _) as [st [body|e]|e]; simpl;
        try destruct (st =? 200); simpl; try destruct e; reflexivity.
    + by exists su, sc.
  - unfold send_task_notification.
    destruct (guard_cases user_id conversation_id)
      as [(-> & _)|(-> & _ & su & sc & -> & -> & Hu & Hc)]; [by left|].
    right. unfold try_except, bind, post.
    exists (notification_request self (Some su) (Some sc) task_name task_id
              notification_type details).
    split; [|split; [|split; reflexivity]].
    + unfold notification_request.
      destruct (net _) as [st [body|e]|e]; simpl;
        try destruct (st =? 200); simpl; reflexivity.
    + by exists su, sc.
Qed.

End DeliveryMore.
